(** * The anonymization overlay of the viewer: layer and builder

    A shallow embedding of [src/display/anonymization_layer.js]
    ([AnonymizationElementFactory], [AnonymizationLayer]) and of the
    viewer-side builder ([AnonymizationLayerBuilder],
    [DefaultAnonymizationLayerFactory]).

    JavaScript numbers are modelled as rationals, objects that the code
    mutates (the canvas, the rectangle array, the closure variables of the
    mouse handlers) live in an explicit state that is threaded through a
    state-and-exception monad. *)

From Stdlib Require Import QArith Qabs Qminmax Qfield ZArith Lia.
From stdpp Require Import base option list gmap strings.

Local Open Scope string_scope.

(** ** Completions: normal return or a thrown error, over a mutable state *)

Inductive JsError : Type :=
  | TypeError (msg : string)
  | ReferenceError (name : string).

Inductive Completion (A : Type) : Type :=
  | Normal (a : A)
  | Throw (e : JsError).
Arguments Normal {A} a.
Arguments Throw {A} e.

(** A computation reads and writes a state [St]; when it throws, the writes
    made before the throw stay. *)
Definition M (St A : Type) : Type := St -> Completion A * St.

Definition ret {St A} (a : A) : M St A := fun s => (Normal a, s).

Definition bind {St A B} (m : M St A) (k : A -> M St B) : M St B :=
  fun s =>
    match m s with
    | (Normal a, s') => k a s'
    | (Throw e, s') => (Throw e, s')
    end.

Definition throw {St A} (e : JsError) : M St A := fun s => (Throw e, s).
Definition get {St} : M St St := fun s => (Normal s, s).
Definition modify {St} (f : St -> St) : M St unit := fun s => (Normal tt, f s).

(** Run a computation on a part of the state, selected by a getter and a
    setter. *)
Definition zoom {St T A} (proj : St -> T) (upd : T -> St -> St) (m : M T A)
  : M St A :=
  fun s => let '(r, t) := m (proj s) in (r, upd t s).

Declare Scope js_scope.
Delimit Scope js_scope with js.
Notation "'let*' x ':=' m 'in' k" := (bind m (fun x => k))
  (at level 10, x name, m at level 100, k at level 200) : js_scope.
Notation "m ';;;' k" := (bind m (fun _ => k))
  (at level 100, k at level 200, right associativity) : js_scope.
Local Open Scope js_scope.

Definition state_after {St A} (m : M St A) (s : St) : St := snd (m s).
Definition outcome {St A} (m : M St A) (s : St) : Completion A := fst (m s).

(** ** Geometry *)

(** A rectangle in page space, [{x0, y0, x1, y1}]. *)
Record Rectangle : Type := { x0 : Q; y0 : Q; x1 : Q; y1 : Q }.

(** What [rectangles[i]] can hold: a rectangle object, [null], or
    [undefined] (also what an index outside the array reads). *)
Inductive Entry : Type :=
  | Null
  | Undefined
  | Rect (r : Rectangle).

(** Truthiness test [if (!rectangle) continue]: only an object passes. *)
Definition truthy (e : Entry) : option Rectangle :=
  match e with
  | Rect r => Some r
  | Null | Undefined => None
  end.

Definition index (rectangles : list Entry) (i : nat) : Entry :=
  default Undefined (rectangles !! i).

(** The interface the layer consumes from the viewport object. *)
Class ViewportLike (V : Type) : Type := {
  convertToViewportPoint : V -> Q -> Q -> Q * Q;
  convertToPdfPoint : V -> Q -> Q -> Q * Q;
  clone : V -> bool -> V;  (* [clone({ dontFlip })] *)
  width : V -> Q;
  height : V -> Q
}.

(** ** The canvas element and its 2D context *)

(** [[x, y, width, height]] as passed to [fillRect] and [clearRect]. *)
Definition Rect4 : Type := (Q * Q * Q * Q)%type.

(** The [width] and [height] of a canvas are [unsigned long] attributes
    that reflect content attributes.  A number assigned to one of them is
    truncated toward zero and taken modulo [2^32]; a result above
    [2^31 - 1] is replaced by the default of the attribute. *)
Definition to_unsigned_long (q : Q) : Z :=
  (Z.quot (Qnum q) (Zpos (Qden q)) mod 2 ^ 32)%Z.

Definition canvas_dimension (default : Z) (q : Q) : Z :=
  let n := to_unsigned_long q in
  if (n <=? 2147483647)%Z then n else default.

(** Calls received by the 2D context, oldest first.  Assigning the width or
    the height of a canvas resets its bitmap, which is logged as well. *)
Inductive CtxOp : Type :=
  | SetFillStyle (style : string)
  | FillRect (r : Rect4)
  | ClearRect (r : Rect4)
  | ResetBitmap.

Record Canvas : Type := {
  canvas_width : Z;
  canvas_height : Z;
  style_width : string;
  style_height : string;
  attributes : gmap string string;
  context2d : list CtxOp
}.

Definition ctx_call (op : CtxOp) (c : Canvas) : Canvas :=
  {| canvas_width := canvas_width c; canvas_height := canvas_height c;
     style_width := style_width c; style_height := style_height c;
     attributes := attributes c;
     context2d := context2d c ++ [op] |}.

Definition setAttribute (name value : string) (c : Canvas) : Canvas :=
  {| canvas_width := canvas_width c; canvas_height := canvas_height c;
     style_width := style_width c; style_height := style_height c;
     attributes := <[name := value]> (attributes c);
     context2d := context2d c |}.

Definition removeAttribute (name : string) (c : Canvas) : Canvas :=
  {| canvas_width := canvas_width c; canvas_height := canvas_height c;
     style_width := style_width c; style_height := style_height c;
     attributes := delete name (attributes c);
     context2d := context2d c |}.

(** *** What the logged calls leave on the bitmap *)

Inductive Pixel : Type :=
  | Transparent
  | Filled (style : string).

(** [fillRect]/[clearRect] accept negative extents: the covered region is
    the one between the two corners.  Both do nothing when the width or
    the height is zero. *)
Definition between (a d t : Q) : bool :=
  (Qle_bool (Qmin a (a + d)) t && Qle_bool t (Qmax a (a + d)))%bool.

Definition covers (r : Rect4) (px py : Q) : bool :=
  let '(x, y, w, h) := r in
  (negb (Qeq_bool w 0) && negb (Qeq_bool h 0)
   && between x w px && between y h py)%bool.

(** Replays the log at one sample point; the state is the current fill
    style and the colour of the point. *)
Definition replay_op (px py : Q) (st : string * Pixel) (op : CtxOp)
  : string * Pixel :=
  match op with
  | SetFillStyle s => (s, snd st)
  | FillRect r => if covers r px py then (fst st, Filled (fst st)) else st
  | ClearRect r => if covers r px py then (fst st, Transparent) else st
  | ResetBitmap => ("#000000", Transparent)
  end.

Definition pixel (c : Canvas) (px py : Q) : Pixel :=
  snd (fold_left (replay_op px py) (context2d c) ("#000000", Transparent)).

(** The rectangles painted, in call order. *)
Definition paints (log : list CtxOp) : list Rect4 :=
  omap (fun op => match op with FillRect r => Some r | _ => None end) log.

(** ** The state the layer works on *)

(** The canvas and the rectangle array are objects shared by reference:
    [parameters.canvas], the [canvas] captured by the closures,
    [parameters.rectangles] and the [rectangles] captured by the mouse
    handlers all denote the one canvas and the one array of the store. *)
Record Store : Type := { canvas : Canvas; rectangles : list Entry }.

Definition on_canvas (f : Canvas -> Canvas) : M Store unit :=
  modify (fun s => {| canvas := f (canvas s); rectangles := rectangles s |}).

(** [rectangles.push(rectangle)] *)
Definition push (e : Entry) : M Store unit :=
  modify (fun s => {| canvas := canvas s; rectangles := rectangles s ++ [e] |}).

(** The object returned by [AnonymizationElementFactory.create]; its two
    methods close over the context of the canvas and [viewportRectangle]. *)
Record Element : Type := { isRenderable : bool; viewportRectangle : Rect4 }.

Definition element_render (element : Element) : M Store unit :=
  on_canvas (ctx_call (SetFillStyle "black")) ;;;
  on_canvas (ctx_call (FillRect (viewportRectangle element))).

Definition element_clear (element : Element) : M Store unit :=
  on_canvas (ctx_call (ClearRect (viewportRectangle element))).

Record MouseEvent : Type := { offsetX : Q; offsetY : Q }.

Inductive Event : Type :=
  | MouseDown (e : MouseEvent)
  | MouseUp (e : MouseEvent)
  | MouseMove (e : MouseEvent).

(** ** AnonymizationElementFactory *)

Module AnonymizationElementFactory.
Section Factory.
Context {V Page : Type} `{!ViewportLike V}.

(** The parameters object is [{ rectangle, canvas, page, viewport }];
    [canvas] is the reference described at [Store]. *)
Definition create (rectangle : Rectangle) (page : Page) (viewport : V)
  : Element :=
  let viewPortX := convertToViewportPoint viewport (x0 rectangle) (y0 rectangle) in
  let viewPortY := convertToViewportPoint viewport (x1 rectangle) (y1 rectangle) in
  let viewportRectangle :=
    (fst viewPortX,
     Qabs (snd viewPortX - height viewport),
     fst viewPortY - fst viewPortX,
     Qabs (snd viewPortY - height viewport)
       - Qabs (snd viewPortX - height viewport))%Q in
  {| isRenderable := true; viewportRectangle := viewportRectangle |}.

End Factory.
End AnonymizationElementFactory.

(** ** AnonymizationLayer *)

Module AnonymizationLayer.
Section Layer.
Context {V Page : Type} `{!ViewportLike V}.

(** [AnnotationLayerParameters]: [canvas] and [rectangles] are the
    references described at [Store]. *)
Record Parameters : Type := { viewport : V; page : Page }.

(** *** renderRectangles *)

(** Calling the second argument; [update] leaves it out, so it may be
    [undefined]. *)
Definition call_rectangleFactory
    (rectangleFactory : option (Rectangle -> Element))
    (rectangle : Rectangle) : M Store Element :=
  match rectangleFactory with
  | Some f => ret (f rectangle)
  | None => throw (TypeError "rectangleFactory is not a function")
  end.

(** The [for] loop from index [i], with [n = ii - i] iterations left;
    [rectangles[i]] is read from the array at each iteration. *)
Fixpoint renderRectangles_from
    (rectangleFactory : option (Rectangle -> Element)) (n i : nat)
  : M Store unit :=
  match n with
  | O => ret tt
  | S n' =>
      let* s := get in
      match truthy (index (rectangles s) i) with
      | None => renderRectangles_from rectangleFactory n' (S i)
      | Some rectangle =>
          let* element := call_rectangleFactory rectangleFactory rectangle in
          (if isRenderable element then element_render element else ret tt) ;;;
          renderRectangles_from rectangleFactory n' (S i)
      end
  end.

Definition renderRectangles (parameters : Parameters)
    (rectangleFactory : option (Rectangle -> Element)) : M Store unit :=
  let* s := get in
  let ii := length (rectangles s) in
  renderRectangles_from rectangleFactory ii 0.

(** *** registerCanvasEvents *)

(** One call of [registerCanvasEvents]: the arguments its three handlers
    close over, and its three local variables.  [createRectangle] is
    either [null] or the closure made by the [mousedown] handler, which
    is determined by the event [e] of that [mousedown]. *)
Record Gesture : Type := {
  g_viewport : V;
  rerender : M Store unit;
  rectangleFactory : Rectangle -> Element;
  painting : bool;
  createRectangle : option MouseEvent;
  rectangle : option Element
}.

Definition set_painting (b : bool) (g : Gesture) : Gesture :=
  {| g_viewport := g_viewport g; rerender := rerender g;
     rectangleFactory := rectangleFactory g;
     painting := b; createRectangle := createRectangle g;
     rectangle := rectangle g |}.

Definition set_createRectangle (f : option MouseEvent) (g : Gesture)
  : Gesture :=
  {| g_viewport := g_viewport g; rerender := rerender g;
     rectangleFactory := rectangleFactory g;
     painting := painting g; createRectangle := f;
     rectangle := rectangle g |}.

Definition set_rectangle (r : option Element) (g : Gesture) : Gesture :=
  {| g_viewport := g_viewport g; rerender := rerender g;
     rectangleFactory := rectangleFactory g;
     painting := painting g; createRectangle := createRectangle g;
     rectangle := r |}.

(** The body of the closure assigned to [createRectangle], with [e] the
    [mousedown] event it captured. *)
Definition createRectangle_body (viewport : V) (e mouseEvent : MouseEvent)
  : Rectangle :=
  let point0 :=
    convertToPdfPoint viewport (offsetX e) (height viewport - offsetY e)%Q in
  let point1 :=
    convertToPdfPoint viewport (offsetX mouseEvent)
      (height viewport - offsetY mouseEvent)%Q in
  {| x0 := fst point0; y0 := snd point0; x1 := fst point1; y1 := snd point1 |}.

(** Handlers run on the closure variables and the store. *)
Definition Handler (A : Type) : Type := M (Gesture * Store) A.

Definition closure : Handler Gesture :=
  let* s := get in ret (fst s).
Definition assign (f : Gesture -> Gesture) : Handler unit :=
  modify (fun s => (f (fst s), snd s)).
Definition in_store {A} (m : M Store A) : Handler A :=
  zoom snd (fun t s => (fst s, t)) m.

Definition call_createRectangle (mouseEvent : MouseEvent)
  : Handler Rectangle :=
  let* g := closure in
  match createRectangle g with
  | Some e => ret (createRectangle_body (g_viewport g) e mouseEvent)
  | None => throw (TypeError "createRectangle is not a function")
  end.

Definition mousedown (e : MouseEvent) : Handler unit :=
  let* g := closure in
  if negb (painting g) then
    assign (set_createRectangle (Some e)) ;;;
    assign (set_painting true)
  else ret tt.

Definition mouseup (e : MouseEvent) : Handler unit :=
  let* g := closure in
  if painting g then
    let* rectangle := call_createRectangle e in
    in_store (push (Rect rectangle)) ;;;
    in_store (rerender g) ;;;
    assign (set_painting false)
  else ret tt.

Definition mousemove (e : MouseEvent) : Handler unit :=
  let* g := closure in
  match rectangle g with
  | Some r =>
      in_store (element_clear r) ;;;
      assign (set_rectangle None) ;;;
      in_store (rerender g)
  | None => ret tt
  end ;;;
  let* g := closure in
  if painting g then
    let* r := call_createRectangle e in
    let element := rectangleFactory g r in
    assign (set_rectangle (Some element)) ;;;
    in_store (element_render element)
  else ret tt.

Definition handler (ev : Event) : Handler unit :=
  match ev with
  | MouseDown e => mousedown e
  | MouseUp e => mouseup e
  | MouseMove e => mousemove e
  end.

(** A canvas with its registered listeners; [reported] collects the
    errors thrown by listeners, which event dispatch reports and then
    goes on. *)
Record Session : Type := {
  store : Store;
  listeners : list Gesture;
  reported : list JsError
}.

Definition in_session_store {A} (m : M Store A) : M Session A :=
  zoom store
    (fun t s => {| store := t; listeners := listeners s;
                   reported := reported s |}) m.

(** [registerCanvasEvents(canvas, viewport, rectangles, rerender,
    rectangleFactory)]; [canvas] and [rectangles] are the references
    described at [Store].  The three [addEventListener] calls add one
    listener record, whose handlers share the three local variables. *)
Definition registerCanvasEvents (viewport : V) (rerender : M Store unit)
    (rectangleFactory : Rectangle -> Element) : M Session unit :=
  modify (fun s =>
    {| store := store s;
       listeners := listeners s ++
         [{| g_viewport := viewport; rerender := rerender;
             rectangleFactory := rectangleFactory;
             painting := false; createRectangle := None;
             rectangle := None |}];
       reported := reported s |}).

(** *** render *)
Definition render (parameters : Parameters) : M Session unit :=
  let rectangleFactory := fun rectangle =>
    AnonymizationElementFactory.create rectangle (page parameters)
      (viewport parameters) in
  in_session_store (renderRectangles parameters (Some rectangleFactory)) ;;;
  registerCanvasEvents (viewport parameters)
    (renderRectangles parameters (Some rectangleFactory))
    rectangleFactory.

(** *** update *)
Definition update (parameters : Parameters) : M Store unit :=
  renderRectangles parameters None ;;;
  on_canvas (removeAttribute "hidden").

(** *** Event dispatch by the browser *)

(** Runs the handler of listener [g] and writes its closure variables
    back; a thrown error is reported. *)
Definition run_listener (ev : Event) (g : Gesture) (st : Store)
    (errs : list JsError) : Gesture * Store * list JsError :=
  match handler ev (g, st) with
  | (Normal _, (g', st')) => (g', st', errs)
  | (Throw err, (g', st')) => (g', st', (errs ++ [err])%list)
  end.

Fixpoint dispatch_to (ev : Event) (gs : list Gesture) (st : Store)
    (errs : list JsError) : list Gesture * Store * list JsError :=
  match gs with
  | [] => ([], st, errs)
  | g :: gs' =>
      let '(g', st', errs') := run_listener ev g st errs in
      let '(gs'', st'', errs'') := dispatch_to ev gs' st' errs' in
      (g' :: gs'', st'', errs'')
  end.

Definition fire (s : Session) (ev : Event) : Session :=
  let '(gs, st, errs) := dispatch_to ev (listeners s) (store s) (reported s) in
  {| store := st; listeners := gs; reported := errs |}.

Definition fire_all (s : Session) (evs : list Event) : Session :=
  fold_left fire evs s.

End Layer.

Arguments Parameters : clear implicits.
Arguments Gesture : clear implicits.
Arguments Session : clear implicits.

End AnonymizationLayer.

(** ** The viewport of the host viewer *)

Module PageViewport.

(** Modelled from the spec: the viewport object handed to the builder
    (class [PageViewport] of the display code, which lives outside the
    layer and the builder).  The spec describes it as an immutable
    page-to-canvas transform made of a scale, a rotation and a vertical
    flip that [clone({ dontFlip })] switches off, exposing [width],
    [height], [convertToViewportPoint] and [convertToPdfPoint].  The
    model is the affine map built from the page box, the scale, the
    rotation in degrees and the canvas offsets. *)
Record t : Type := {
  viewBox : Q * Q * Q * Q;
  scale : Q;
  rotation : Z;
  offsetX : Q;
  offsetY : Q;
  dontFlip : bool
}.

(** The rotation and flip part [(rotateA, rotateB, rotateC, rotateD)];
    a rotation that is not a multiple of a quarter turn counts as none. *)
Definition rotate (v : t) : Q * Q * Q * Q :=
  let r := Z.rem (rotation v) 360 in
  let r := if (r <? 0)%Z then (r + 360)%Z else r in
  let '(rotateA, rotateB, rotateC, rotateD) :=
    (if (r =? 180)%Z then (-1, 0, 0, 1)
     else if (r =? 90)%Z then (0, 1, 1, 0)
     else if (r =? 270)%Z then (0, -1, -1, 0)
     else (1, 0, 0, -1))%Q in
  if dontFlip v then (rotateA, rotateB, - rotateC, - rotateD)%Q
  else (rotateA, rotateB, rotateC, rotateD).

Definition quarter_turned (v : t) : bool :=
  let '(rotateA, _, _, _) := rotate v in Qeq_bool rotateA 0.

Definition width (v : t) : Q :=
  let '(vx0, vy0, vx1, vy1) := viewBox v in
  if quarter_turned v then (Qabs (vy1 - vy0) * scale v)%Q
  else (Qabs (vx1 - vx0) * scale v)%Q.

Definition height (v : t) : Q :=
  let '(vx0, vy0, vx1, vy1) := viewBox v in
  if quarter_turned v then (Qabs (vx1 - vx0) * scale v)%Q
  else (Qabs (vy1 - vy0) * scale v)%Q.

(** The matrix [[a, b, c, d, e, f]]: translate the centre of the page box
    to the origin, rotate and flip, scale, translate to the centre of the
    canvas. *)
Definition transform (v : t) : Q * Q * Q * Q * Q * Q :=
  let '(vx0, vy0, vx1, vy1) := viewBox v in
  let '(rotateA, rotateB, rotateC, rotateD) := rotate v in
  let centerX := ((vx1 + vx0) / 2)%Q in
  let centerY := ((vy1 + vy0) / 2)%Q in
  let '(offsetCanvasX, offsetCanvasY) :=
    if quarter_turned v then
      (Qabs (centerY - vy0) * scale v + offsetX v,
       Qabs (centerX - vx0) * scale v + offsetY v)%Q
    else
      (Qabs (centerX - vx0) * scale v + offsetX v,
       Qabs (centerY - vy0) * scale v + offsetY v)%Q in
  (rotateA * scale v, rotateB * scale v, rotateC * scale v,
   rotateD * scale v,
   offsetCanvasX - rotateA * scale v * centerX - rotateC * scale v * centerY,
   offsetCanvasY - rotateB * scale v * centerX - rotateD * scale v * centerY)%Q.

Definition applyTransform (p : Q * Q) (m : Q * Q * Q * Q * Q * Q) : Q * Q :=
  let '(m0, m1, m2, m3, m4, m5) := m in
  (fst p * m0 + snd p * m2 + m4, fst p * m1 + snd p * m3 + m5)%Q.

(** Division by a zero determinant yields zero here, where floating point
    yields an infinity or a NaN; the scale of a viewport in use is not
    zero. *)
Definition applyInverseTransform (p : Q * Q) (m : Q * Q * Q * Q * Q * Q)
  : Q * Q :=
  let '(m0, m1, m2, m3, m4, m5) := m in
  let d := (m0 * m3 - m1 * m2)%Q in
  ((fst p * m3 - snd p * m2 + m2 * m5 - m4 * m3) / d,
   (- fst p * m1 + snd p * m0 + m4 * m1 - m5 * m0) / d)%Q.

Definition convertToViewportPoint (v : t) (x y : Q) : Q * Q :=
  applyTransform (x, y) (transform v).

Definition convertToPdfPoint (v : t) (x y : Q) : Q * Q :=
  applyInverseTransform (x, y) (transform v).

Definition clone (v : t) (dontFlip : bool) : t :=
  {| viewBox := viewBox v; scale := scale v; rotation := rotation v;
     offsetX := offsetX v; offsetY := offsetY v; dontFlip := dontFlip |}.

End PageViewport.

#[global] Instance PageViewport_like : ViewportLike PageViewport.t := {
  convertToViewportPoint := PageViewport.convertToViewportPoint;
  convertToPdfPoint := PageViewport.convertToPdfPoint;
  clone := PageViewport.clone;
  width := PageViewport.width;
  height := PageViewport.height
}.

(** ** AnonymizationLayerBuilder *)

(** The localization service: [NullL10n] or one supplied by the caller. *)
Inductive L10n : Type :=
  | NullL10n
  | L10nService (id : nat).

(** The page container: its inline size and the children appended to it. *)
Record PageDiv : Type := {
  div_style_width : string;
  div_style_height : string;
  children : list string
}.

Module AnonymizationLayerBuilder.
Section Builder.
Context {V Page : Type} `{!ViewportLike V}.

Definition session_of (c : Canvas) (rs : list Entry)
    (gs : list (AnonymizationLayer.Gesture V)) (errs : list JsError)
  : AnonymizationLayer.Session V :=
  {| AnonymizationLayer.store := {| canvas := c; rectangles := rs |};
     AnonymizationLayer.listeners := gs;
     AnonymizationLayer.reported := errs |}.

Definition session_canvas (s : AnonymizationLayer.Session V) : Canvas :=
  canvas (AnonymizationLayer.store s).

Definition session_rectangles (s : AnonymizationLayer.Session V)
  : list Entry :=
  rectangles (AnonymizationLayer.store s).

(** The builder ([pageDiv] to [_cancelled], as set by the constructor)
    together with what it acts on: the listeners registered on its
    canvas, the errors reported by event dispatch, the number of canvas
    elements created through [document], the [translate] requests
    received by the localization service, the [getAnnotations] promises
    not yet settled (each with the [viewport] and [intent] its callback
    captured), and the rejections nobody handles. *)
Record World : Type := {
  pageDiv : PageDiv;
  pdfPage : Page;
  l10n : L10n;
  rectangles : list Entry;
  canvas : option Canvas;
  _cancelled : bool;
  listeners : list (AnonymizationLayer.Gesture V);
  reported : list JsError;
  created : nat;
  translated : list L10n;
  pending : list (V * string);
  unhandled : list JsError
}.

Definition constructor (pageDiv : PageDiv) (pdfPage : Page)
    (rectangles : list Entry) (l10n : option L10n) : World :=
  {| pageDiv := pageDiv; pdfPage := pdfPage;
     l10n := default NullL10n l10n;
     rectangles := rectangles; canvas := None; _cancelled := false;
     listeners := []; reported := []; created := 0; translated := [];
     pending := []; unhandled := [] |}.

Definition set_canvas (c : option Canvas) (w : World) : World :=
  {| pageDiv := pageDiv w; pdfPage := pdfPage w; l10n := l10n w;
     rectangles := rectangles w; canvas := c; _cancelled := _cancelled w;
     listeners := listeners w; reported := reported w;
     created := created w; translated := translated w;
     pending := pending w; unhandled := unhandled w |}.

Definition set_cancelled (b : bool) (w : World) : World :=
  {| pageDiv := pageDiv w; pdfPage := pdfPage w; l10n := l10n w;
     rectangles := rectangles w; canvas := canvas w; _cancelled := b;
     listeners := listeners w; reported := reported w;
     created := created w; translated := translated w;
     pending := pending w; unhandled := unhandled w |}.

Definition set_pending (p : list (V * string)) (w : World) : World :=
  {| pageDiv := pageDiv w; pdfPage := pdfPage w; l10n := l10n w;
     rectangles := rectangles w; canvas := canvas w;
     _cancelled := _cancelled w;
     listeners := listeners w; reported := reported w;
     created := created w; translated := translated w;
     pending := p; unhandled := unhandled w |}.

(** Writes a session of the layer back into the world. *)
Definition put_session (s : AnonymizationLayer.Session V) (w : World)
  : World :=
  {| pageDiv := pageDiv w; pdfPage := pdfPage w; l10n := l10n w;
     rectangles := session_rectangles s;
     canvas := Some (session_canvas s); _cancelled := _cancelled w;
     listeners := AnonymizationLayer.listeners s;
     reported := AnonymizationLayer.reported s;
     created := created w; translated := translated w;
     pending := pending w; unhandled := unhandled w |}.

(** Runs layer code on the canvas of the builder; dereferencing a [null]
    canvas throws. *)
Definition in_layer {A} (m : M (AnonymizationLayer.Session V) A)
  : M World A :=
  fun w =>
    match canvas w with
    | None => (Throw (TypeError "canvas is null"), w)
    | Some c =>
        let '(r, s) :=
          m (session_of c (rectangles w) (listeners w) (reported w)) in
        (r, put_session s w)
    end.

(** [this.canvas = document.createElement('canvas')]: a canvas starts
    300 by 150, with no attribute and an empty bitmap. *)
Definition createElement_canvas : M World unit :=
  modify (fun w =>
    {| pageDiv := pageDiv w; pdfPage := pdfPage w; l10n := l10n w;
       rectangles := rectangles w;
       canvas := Some {| canvas_width := 300; canvas_height := 150;
                         style_width := ""; style_height := "";
                         attributes := ∅; context2d := [] |};
       _cancelled := _cancelled w;
       listeners := []; reported := reported w;
       created := S (created w); translated := translated w;
       pending := pending w; unhandled := unhandled w |}).

(** [this.pageDiv.appendChild(this.canvas)] *)
Definition appendChild_canvas : M World unit :=
  modify (fun w =>
    {| pageDiv := {| div_style_width := div_style_width (pageDiv w);
                     div_style_height := div_style_height (pageDiv w);
                     children := (children (pageDiv w) ++ ["canvas"])%list |};
       pdfPage := pdfPage w; l10n := l10n w;
       rectangles := rectangles w; canvas := canvas w;
       _cancelled := _cancelled w;
       listeners := listeners w; reported := reported w;
       created := created w; translated := translated w;
       pending := pending w; unhandled := unhandled w |}).

(** [this.l10n.translate(this.canvas)] *)
Definition translate_canvas : M World unit :=
  modify (fun w =>
    {| pageDiv := pageDiv w; pdfPage := pdfPage w; l10n := l10n w;
       rectangles := rectangles w; canvas := canvas w;
       _cancelled := _cancelled w;
       listeners := listeners w; reported := reported w;
       created := created w;
       translated := (translated w ++ [l10n w])%list;
       pending := pending w; unhandled := unhandled w |}).

(** The two size assignments go through the [unsigned long] conversion of
    the canvas attributes, and each resets the bitmap. *)
Definition updateCanvas (viewport : V) : M World unit :=
  let* w := get in
  match canvas w with
  | None => throw (TypeError "this.canvas is null")
  | Some c =>
      modify (set_canvas (Some
        {| canvas_width := canvas_dimension 300 (width viewport);
           canvas_height := canvas_dimension 150 (height viewport);
           style_width := div_style_width (pageDiv w);
           style_height := div_style_height (pageDiv w);
           attributes := attributes c;
           context2d := (context2d c ++ [ResetBitmap; ResetBitmap])%list |}))
  end.

(** The function passed to [then], run when [getAnnotations] fulfils;
    its argument [annotations] is not used. *)
Definition render_callback (viewport : V) (intent : string) : M World unit :=
  let* w := get in
  if _cancelled w then ret tt
  else
    let parameters :=
      {| AnonymizationLayer.viewport := clone viewport true;
         AnonymizationLayer.page := pdfPage w |} in
    match canvas w with
    | Some _ =>
        updateCanvas viewport ;;;
        in_layer (AnonymizationLayer.in_session_store
                    (AnonymizationLayer.update parameters))
    | None =>
        createElement_canvas ;;;
        updateCanvas viewport ;;;
        appendChild_canvas ;;;
        in_layer (AnonymizationLayer.render parameters) ;;;
        translate_canvas
    end.

(** [render(viewport, intent = 'display')] only starts the fetch. *)
Definition render (viewport : V) (intent : option string) : M World unit :=
  modify (fun w =>
    set_pending (pending w ++ [(viewport, default "display" intent)])%list w).

Definition cancel : M World unit := modify (set_cancelled true).

Definition hide : M World unit :=
  let* w := get in
  match canvas w with
  | None => ret tt
  | Some c => modify (set_canvas (Some (setAttribute "hidden" "true" c)))
  end.

(** *** The event loop around the builder *)

Inductive Action : Type :=
  | Render (viewport : V) (intent : option string)
  | Cancel
  | Hide
  | Fulfil (i : nat)   (* the [i]-th pending fetch resolves *)
  | Reject (i : nat) (reason : JsError)   (* the [i]-th pending fetch fails *)
  | Mouse (ev : Event).

Definition report_unhandled (err : JsError) (w : World) : World :=
  {| pageDiv := pageDiv w; pdfPage := pdfPage w; l10n := l10n w;
     rectangles := rectangles w; canvas := canvas w;
     _cancelled := _cancelled w;
     listeners := listeners w; reported := reported w;
     created := created w; translated := translated w;
     pending := pending w;
     unhandled := (unhandled w ++ [err])%list |}.

Definition fulfil (i : nat) (w : World) : World :=
  match pending w !! i with
  | None => w
  | Some (viewport, intent) =>
      match render_callback viewport intent
              (set_pending (delete i (pending w)) w) with
      | (Normal _, w') => w'
      | (Throw err, w') => report_unhandled err w'
      end
  end.

Definition reject (i : nat) (reason : JsError) (w : World) : World :=
  match pending w !! i with
  | None => w
  | Some _ => report_unhandled reason (set_pending (delete i (pending w)) w)
  end.

Definition mouse (ev : Event) (w : World) : World :=
  match canvas w with
  | None => w
  | Some c =>
      put_session
        (AnonymizationLayer.fire
           (session_of c (rectangles w) (listeners w) (reported w)) ev) w
  end.

Definition step (w : World) (a : Action) : World :=
  match a with
  | Render viewport intent => state_after (render viewport intent) w
  | Cancel => state_after cancel w
  | Hide => state_after hide w
  | Fulfil i => fulfil i w
  | Reject i reason => reject i reason w
  | Mouse ev => mouse ev w
  end.

Definition run (w : World) (acts : list Action) : World :=
  fold_left step acts w.

End Builder.

Arguments World : clear implicits.
Arguments Action : clear implicits.

End AnonymizationLayerBuilder.

(** ** DefaultAnonymizationLayerFactory *)

Module DefaultAnonymizationLayerFactory.
Section Factory.
Context {V Page Value : Type} `{!ViewportLike V}.

(** [createAnonymizationBuilder(pageDiv, pdfPage, rectangles, l10n)].
    The object literal passed to the constructor reads five identifiers
    in order.  Four are parameters of the method; [imageResourcesPath]
    is bound neither by the method nor by the module (whose bindings are
    [AnonymizationLayer], [NullL10n] and the two classes), so it is
    looked up in the global object, and the lookup of a name that is not
    there throws.  The constructor does not read the property. *)
Definition createAnonymizationBuilder (globals : gmap string Value)
    (pageDiv : PageDiv) (pdfPage : Page) (rectangles : list Entry)
    (l10n : option L10n)
  : Completion (AnonymizationLayerBuilder.World V Page) :=
  let l10n := default NullL10n l10n in
  match globals !! "imageResourcesPath" with
  | None => Throw (ReferenceError "imageResourcesPath")
  | Some imageResourcesPath =>
      Normal (AnonymizationLayerBuilder.constructor pageDiv pdfPage
                rectangles (Some l10n))
  end.

End Factory.
End DefaultAnonymizationLayerFactory.

(** ** Specification-side vocabulary *)

(** Appends calls to the log of the 2D context. *)
Definition append_ops (ops : list CtxOp) (c : Canvas) : Canvas :=
  {| canvas_width := canvas_width c; canvas_height := canvas_height c;
     style_width := style_width c; style_height := style_height c;
     attributes := attributes c;
     context2d := (context2d c ++ ops)%list |}.

(** Equality of rectangles as numbers, whatever the fractions that
    denote them. *)
Definition Rect4_eq (a b : Rect4) : Prop :=
  let '(x, y, w, h) := a in
  let '(x', y', w', h') := b in
  (x == x' /\ y == y' /\ w == w' /\ h == h')%Q.

Definition Rectangle_eq (a b : Rectangle) : Prop :=
  (x0 a == x0 b /\ y0 a == y0 b /\ x1 a == x1 b /\ y1 a == y1 b)%Q.

(** The entries of the array that are rectangles, in order. *)
Definition non_null (rs : list Entry) : list Rectangle := omap truthy rs.

(** One paint operation: what [element.render()] sends to the context. *)
Definition paint_call (element : Element) : list CtxOp :=
  if isRenderable element
  then [SetFillStyle "black"; FillRect (viewportRectangle element)]
  else [].

Definition paint_calls (f : Rectangle -> Element) (rs : list Entry)
  : list CtxOp :=
  flat_map (fun r => paint_call (f r)) (non_null rs).

(** The elements that a repaint of the array paints, and whether one of
    them covers a sample point. *)
Definition painted_elements (f : Rectangle -> Element) (rs : list Entry)
  : list Element :=
  flat_map (fun r => if isRenderable (f r) then [f r] else []) (non_null rs).

Definition covered_by (els : list Element) (px py : Q) : bool :=
  existsb (fun el => covers (viewportRectangle el) px py) els.

Section Vocabulary.
Context {V Page : Type} `{!ViewportLike V}.

(** The factory closure that [AnonymizationLayer.render] builds. *)
Definition factory_of (p : AnonymizationLayer.Parameters V Page)
  : Rectangle -> Element :=
  fun rectangle =>
    AnonymizationElementFactory.create rectangle
      (AnonymizationLayer.page p) (AnonymizationLayer.viewport p).

(** Follows the spec's words, section 4.3: the gesture is [idle] or
    [painting]; a [mousedown] while idle captures the anchor, a
    [mouseup] returns to idle.  [anchor_after evs a] is the anchor after
    the events [evs], started with anchor [a] ([None] when idle). *)
Definition anchor_step (a : option MouseEvent) (ev : Event)
  : option MouseEvent :=
  match ev, a with
  | MouseDown e, None => Some e
  | MouseDown _, Some e0 => Some e0
  | MouseUp _, _ => None
  | MouseMove _, _ => a
  end.

Definition anchor_after (evs : list Event) : option MouseEvent :=
  fold_left anchor_step evs None.

(** A listener registered by [AnonymizationLayer.render parameters]. *)
Definition registered_by (p : AnonymizationLayer.Parameters V Page)
    (g : AnonymizationLayer.Gesture V) : Prop :=
  AnonymizationLayer.g_viewport g = AnonymizationLayer.viewport p /\
  AnonymizationLayer.rerender g =
    AnonymizationLayer.renderRectangles p (Some (factory_of p)) /\
  AnonymizationLayer.rectangleFactory g = factory_of p.

(** The session right after [AnonymizationLayer.render parameters]. *)
Definition rendered (p : AnonymizationLayer.Parameters V Page)
    (s0 : AnonymizationLayer.Session V) : AnonymizationLayer.Session V :=
  state_after (AnonymizationLayer.render p) s0.

(** What a [mousemove] sends to the context before it looks at
    [painting]: the pending preview is cleared and the array repainted. *)
Definition cleanup_calls (p : AnonymizationLayer.Parameters V Page)
    (g : AnonymizationLayer.Gesture V) (rs : list Entry) : list CtxOp :=
  match AnonymizationLayer.rectangle g with
  | Some r => ClearRect (viewportRectangle r) :: paint_calls (factory_of p) rs
  | None => []
  end.

(** The closure variables of listener [g] agree with the gesture state
    [a] of section 4.3: [painting] says whether there is an anchor, and
    while painting [createRectangle] is the closure over that anchor. *)
Definition tracks (p : AnonymizationLayer.Parameters V Page)
    (a : option MouseEvent) (g : AnonymizationLayer.Gesture V) : Prop :=
  registered_by p g /\
  match a with
  | Some e0 =>
      AnonymizationLayer.painting g = true /\
      AnonymizationLayer.createRectangle g = Some e0
  | None => AnonymizationLayer.painting g = false
  end.

(** The canvas [c] of the builder after [updateCanvas viewport]. *)
Definition resized (viewport : V) (w : AnonymizationLayerBuilder.World V Page)
    (c : Canvas) : Canvas :=
  {| canvas_width := canvas_dimension 300 (width viewport);
     canvas_height := canvas_dimension 150 (height viewport);
     style_width := div_style_width (AnonymizationLayerBuilder.pageDiv w);
     style_height := div_style_height (AnonymizationLayerBuilder.pageDiv w);
     attributes := attributes c;
     context2d := (context2d c ++ [ResetBitmap; ResetBitmap])%list |}.

(** The world after the first render that is not cancelled: a fresh
    canvas is sized, appended to the page container, painted, given its
    listeners, and handed to the localization service. *)
Definition first_render (viewport : V)
    (w : AnonymizationLayerBuilder.World V Page)
  : AnonymizationLayerBuilder.World V Page :=
  let p := {| AnonymizationLayer.viewport := clone viewport true;
              AnonymizationLayer.page := AnonymizationLayerBuilder.pdfPage w |} in
  let fresh := {| canvas_width := 300; canvas_height := 150;
                  style_width := ""; style_height := "";
                  attributes := ∅; context2d := [] |} in
  {| AnonymizationLayerBuilder.pageDiv :=
       {| div_style_width :=
            div_style_width (AnonymizationLayerBuilder.pageDiv w);
          div_style_height :=
            div_style_height (AnonymizationLayerBuilder.pageDiv w);
          children :=
            (children (AnonymizationLayerBuilder.pageDiv w) ++ ["canvas"])%list |};
     AnonymizationLayerBuilder.pdfPage := AnonymizationLayerBuilder.pdfPage w;
     AnonymizationLayerBuilder.l10n := AnonymizationLayerBuilder.l10n w;
     AnonymizationLayerBuilder.rectangles :=
       AnonymizationLayerBuilder.rectangles w;
     AnonymizationLayerBuilder.canvas :=
       Some (append_ops
               (paint_calls (factory_of p)
                  (AnonymizationLayerBuilder.rectangles w))
               (resized viewport w fresh));
     AnonymizationLayerBuilder._cancelled :=
       AnonymizationLayerBuilder._cancelled w;
     AnonymizationLayerBuilder.listeners :=
       [{| AnonymizationLayer.g_viewport := clone viewport true;
           AnonymizationLayer.rerender :=
             AnonymizationLayer.renderRectangles p (Some (factory_of p));
           AnonymizationLayer.rectangleFactory := factory_of p;
           AnonymizationLayer.painting := false;
           AnonymizationLayer.createRectangle := None;
           AnonymizationLayer.rectangle := None |}];
     AnonymizationLayerBuilder.reported :=
       AnonymizationLayerBuilder.reported w;
     AnonymizationLayerBuilder.created :=
       S (AnonymizationLayerBuilder.created w);
     AnonymizationLayerBuilder.translated :=
       (AnonymizationLayerBuilder.translated w
          ++ [AnonymizationLayerBuilder.l10n w])%list;
     AnonymizationLayerBuilder.pending := AnonymizationLayerBuilder.pending w;
     AnonymizationLayerBuilder.unhandled :=
       AnonymizationLayerBuilder.unhandled w |}.

(** What holds of the builder at any time: [translate] has been requested
    once if the canvas exists and never otherwise, and as many canvases
    were created. *)
Definition translated_with_canvas
    (w : AnonymizationLayerBuilder.World V Page) : Prop :=
  match AnonymizationLayerBuilder.canvas w with
  | Some _ =>
      AnonymizationLayerBuilder.translated w
        = [AnonymizationLayerBuilder.l10n w] /\
      AnonymizationLayerBuilder.created w = 1%nat
  | None =>
      AnonymizationLayerBuilder.translated w = [] /\
      AnonymizationLayerBuilder.created w = 0%nat /\
      AnonymizationLayerBuilder.listeners w = []
  end.

(** Both corners of the rectangle map to ordinates on the same side of
    the viewport height: both at most the height, or both at least. *)
Definition same_side_of_height (v : V) (r : Rectangle) : Prop :=
  let Y0 := snd (convertToViewportPoint v (x0 r) (y0 r)) in
  let Y1 := snd (convertToViewportPoint v (x1 r) (y1 r)) in
  (Y0 <= height v /\ Y1 <= height v)%Q \/ (height v <= Y0 /\ height v <= Y1)%Q.

End Vocabulary.

(** ** Vocabulary for event histories and builder histories *)

(** The drag that an event completes when the gesture state is [a]. *)
Definition released (a : option MouseEvent) (ev : Event)
  : list (MouseEvent * MouseEvent) :=
  match ev, a with
  | MouseUp e, Some e0 => [(e0, e)]
  | _, _ => []
  end.

Section Histories.
Context {V Page : Type} `{!ViewportLike V}.

(** A canvas on which nothing is registered yet. *)
Definition unlistened (st : Store) (errs : list JsError)
  : AnonymizationLayer.Session V :=
  {| AnonymizationLayer.store := st;
     AnonymizationLayer.listeners := [];
     AnonymizationLayer.reported := errs |}.

(** The drags completed by the events [evs], oldest first, as pairs of the
    anchor and the release event; [a] is the gesture state before [evs]. *)
Fixpoint completed_from (a : option MouseEvent) (evs : list Event)
  : list (MouseEvent * MouseEvent) :=
  match evs with
  | [] => []
  | ev :: evs' =>
      (released a ev ++ completed_from (anchor_step a ev) evs')%list
  end.

(** The array entries that a listener of [p] makes of completed drags. *)
Definition drawn (p : AnonymizationLayer.Parameters V Page)
    (drags : list (MouseEvent * MouseEvent)) : list Entry :=
  map (fun d => Rect (AnonymizationLayer.createRectangle_body
                        (AnonymizationLayer.viewport p) (fst d) (snd d)))
    drags.

(** Converting the canvas point [(x, y)] to page space and back gives the
    point again. *)
Definition round_trips (v : V) (x y : Q) : Prop :=
  let point := convertToPdfPoint v x y in
  (fst (convertToViewportPoint v (fst point) (snd point)) == x /\
   snd (convertToViewportPoint v (fst point) (snd point)) == y)%Q.

(** An array without any rectangle: [null] where the flag is set,
    [undefined] elsewhere. *)
Definition holes (flags : list bool) : list Entry :=
  map (fun b : bool => if b then Null else Undefined) flags.

(** One more [render] per viewport, each fetch resolving before the next
    call. *)
Definition rerenders (vs : list V) : list (AnonymizationLayerBuilder.Action V) :=
  flat_map (fun v => [AnonymizationLayerBuilder.Render v None;
                      AnonymizationLayerBuilder.Fulfil 0]) vs.

(** The page container holds the canvas of the builder, appended once, and
    nothing else was added to it or changed on it. *)
Definition appended_once (pageDiv0 : PageDiv)
    (w : AnonymizationLayerBuilder.World V Page) : Prop :=
  div_style_width (AnonymizationLayerBuilder.pageDiv w)
    = div_style_width pageDiv0 /\
  div_style_height (AnonymizationLayerBuilder.pageDiv w)
    = div_style_height pageDiv0 /\
  children (AnonymizationLayerBuilder.pageDiv w) =
    (children pageDiv0 ++
     match AnonymizationLayerBuilder.canvas w with
     | Some _ => ["canvas"]
     | None => []
     end)%list /\
  AnonymizationLayerBuilder.created w =
    match AnonymizationLayerBuilder.canvas w with
    | Some _ => 1%nat
    | None => 0%nat
    end.


(** The builder after its first render at viewport [v], with the rectangle
    array still as the constructor received it and no fetch pending. *)
Definition rendered_at (v : V) (rectangles0 : list Entry)
    (w : AnonymizationLayerBuilder.World V Page) : Prop :=
  AnonymizationLayerBuilder._cancelled w = false /\
  is_Some (AnonymizationLayerBuilder.canvas w) /\
  AnonymizationLayerBuilder.rectangles w = rectangles0 /\
  AnonymizationLayerBuilder.pending w = [] /\
  AnonymizationLayerBuilder.reported w = [] /\
  exists g,
    AnonymizationLayerBuilder.listeners w = [g] /\
    tracks {| AnonymizationLayer.viewport := clone v true;
              AnonymizationLayer.page := AnonymizationLayerBuilder.pdfPage w |}
      None g.

End Histories.

(** ** Sample data *)

(** A page of 100 by 100 units shown at scale 1, unrotated, as the builder
    hands it to the layer (cloned with [dontFlip]). *)
Definition sample_viewport : PageViewport.t :=
  {| PageViewport.viewBox := (0, 0, 100, 100)%Q;
     PageViewport.scale := 1;
     PageViewport.rotation := 0;
     PageViewport.offsetX := 0;
     PageViewport.offsetY := 0;
     PageViewport.dontFlip := true |}.

Definition sample_parameters : AnonymizationLayer.Parameters PageViewport.t unit :=
  {| AnonymizationLayer.viewport := sample_viewport;
     AnonymizationLayer.page := tt |}.

Definition blank_canvas : Canvas :=
  {| canvas_width := 100; canvas_height := 100;
     style_width := "100px"; style_height := "100px";
     attributes := ∅; context2d := [] |}.

Definition hidden_canvas : Canvas := setAttribute "hidden" "true" blank_canvas.

Definition sample_rectangle : Rectangle :=
  {| x0 := 10; y0 := 20; x1 := 40; y1 := 60 |}.

(** A session on a canvas that has no listener yet. *)
Definition sample_session (rs : list Entry)
  : AnonymizationLayer.Session PageViewport.t :=
  {| AnonymizationLayer.store := {| canvas := blank_canvas; rectangles := rs |};
     AnonymizationLayer.listeners := [];
     AnonymizationLayer.reported := [] |}.

(** A rectangle whose second corner lies above the page. *)
Definition overshooting_rectangle : Rectangle :=
  {| x0 := 0; y0 := 50; x1 := 10; y1 := 150 |}.

Definition at_point (x y : Q) : MouseEvent := {| offsetX := x; offsetY := y |}.

(** The listener of [sample_parameters] in the middle of a drag that
    started at (10, 10), before any preview was painted. *)
Definition dragging_listener : AnonymizationLayer.Gesture PageViewport.t :=
  {| AnonymizationLayer.g_viewport := sample_viewport;
     AnonymizationLayer.rerender :=
       AnonymizationLayer.renderRectangles sample_parameters
         (Some (factory_of sample_parameters));
     AnonymizationLayer.rectangleFactory := factory_of sample_parameters;
     AnonymizationLayer.painting := true;
     AnonymizationLayer.createRectangle := Some (at_point 10 10);
     AnonymizationLayer.rectangle := None |}.

(** A page 101 units wide and high shown at scale 3/2: its viewport is
    151.5 pixels wide and high. *)
Definition fractional_viewport : PageViewport.t :=
  {| PageViewport.viewBox := (0, 0, 101, 101)%Q;
     PageViewport.scale := 3 # 2;
     PageViewport.rotation := 0;
     PageViewport.offsetX := 0;
     PageViewport.offsetY := 0;
     PageViewport.dontFlip := false |}.

Definition sample_pageDiv : PageDiv :=
  {| div_style_width := "100px"; div_style_height := "100px"; children := [] |}.

(** A builder that has called [render] once and whose fetch is pending. *)
Definition fetching_builder (rs : list Entry)
  : AnonymizationLayerBuilder.World PageViewport.t unit :=
  AnonymizationLayerBuilder.run
    (AnonymizationLayerBuilder.constructor sample_pageDiv tt rs None)
    [AnonymizationLayerBuilder.Render sample_viewport None].

(** A builder whose first fetch, for the fractional viewport, is pending. *)
Definition fractional_builder
  : AnonymizationLayerBuilder.World PageViewport.t unit :=
  AnonymizationLayerBuilder.run
    (AnonymizationLayerBuilder.constructor sample_pageDiv tt [] None)
    [AnonymizationLayerBuilder.Render fractional_viewport None].

(** A builder that has rendered once and called [render] again, the second
    fetch being pending. *)
Definition refetching_builder (rs : list Entry)
  : AnonymizationLayerBuilder.World PageViewport.t unit :=
  AnonymizationLayerBuilder.run
    (AnonymizationLayerBuilder.constructor sample_pageDiv tt rs None)
    [AnonymizationLayerBuilder.Render sample_viewport None;
     AnonymizationLayerBuilder.Fulfil 0;
     AnonymizationLayerBuilder.Render sample_viewport None].

#[global] Arguments AnonymizationElementFactory.create : simpl never.
#[global] Arguments AnonymizationLayer.createRectangle_body : simpl never.
#[global] Arguments factory_of : simpl never.
#[global] Arguments paint_calls : simpl never.
#[global] Arguments append_ops : simpl never.

(** ** Basic facts about the canvas log *)

Lemma append_ops_nil (c : Canvas) : append_ops [] c = c.
Proof. destruct c; unfold append_ops; simpl. by rewrite app_nil_r. Qed.

Lemma append_ops_app (a b : list CtxOp) (c : Canvas) :
  append_ops b (append_ops a c) = append_ops (a ++ b) c.
Proof. unfold append_ops; simpl. by rewrite app_assoc. Qed.

Lemma ctx_call_append (op : CtxOp) (c : Canvas) :
  ctx_call op c = append_ops [op] c.
Proof. reflexivity. Qed.

Lemma paints_app (a b : list CtxOp) : paints (a ++ b) = (paints a ++ paints b)%list.
Proof. unfold paints. apply omap_app. Qed.

Lemma element_render_spec (element : Element) (st : Store) :
  element_render element st =
    (Normal tt,
     {| canvas := append_ops [SetFillStyle "black";
                              FillRect (viewportRectangle element)] (canvas st);
        rectangles := rectangles st |}).
Proof.
  unfold element_render, on_canvas, bind, modify; simpl.
  by rewrite !ctx_call_append, append_ops_app.
Qed.

(** ** renderRectangles *)

Section RenderRectangles.
Context {V Page : Type} `{!ViewportLike V}.
Import AnonymizationLayer.

Lemma index_drop (rs : list Entry) (i : nat) :
  index rs i = match drop i rs with e :: _ => e | [] => Undefined end.
Proof.
  unfold index. revert i. induction rs as [|e rs IH]; intros [|i]; simpl; auto.
Qed.

Lemma drop_S_tail (rs : list Entry) (i : nat) :
  drop (S i) rs = match drop i rs with _ :: t => t | [] => [] end.
Proof.
  revert i. induction rs as [|e rs IH]; intros [|i]; simpl; auto.
Qed.

(** The loop paints the remaining truthy entries in order and leaves the
    array alone. *)
Lemma renderRectangles_from_spec (f : Rectangle -> Element) (n i : nat)
    (st : Store) :
  renderRectangles_from (Some f) n i st =
    (Normal tt,
     {| canvas := append_ops (paint_calls f (take n (drop i (rectangles st))))
                    (canvas st);
        rectangles := rectangles st |}).
Proof.
  revert i st. induction n as [|n IH]; intros i st.
  - simpl. unfold ret. rewrite take_0. unfold paint_calls; simpl.
    rewrite append_ops_nil. by destruct st.
  - simpl. unfold bind at 1. unfold get at 1.
    rewrite index_drop.
    assert (Htl := drop_S_tail (rectangles st) i).
    destruct (drop i (rectangles st)) as [|e t] eqn:Hd.
    + simpl. rewrite IH. simpl. rewrite Htl. by rewrite take_nil.
    + destruct (truthy e) as [r|] eqn:He.
      * unfold bind. simpl. unfold ret at 1.
        assert (Hpc : paint_calls f (e :: take n t)
                      = (paint_call (f r) ++ paint_calls f (take n t))%list).
        { unfold paint_calls, non_null. simpl. by rewrite He. }
        rewrite Hpc.
        unfold paint_call at 1.
        destruct (isRenderable (f r)) eqn:Hr.
        -- rewrite element_render_spec. rewrite IH. simpl.
           by rewrite Htl, append_ops_app.
        -- rewrite IH. simpl. by rewrite Htl.
      * rewrite IH. simpl. rewrite Htl.
        unfold paint_calls, non_null. simpl. by rewrite He.
Qed.

Lemma renderRectangles_spec (p : Parameters V Page)
    (f : Rectangle -> Element) (st : Store) :
  renderRectangles p (Some f) st =
    (Normal tt,
     {| canvas := append_ops (paint_calls f (rectangles st)) (canvas st);
        rectangles := rectangles st |}).
Proof.
  unfold renderRectangles, bind, get.
  rewrite renderRectangles_from_spec. rewrite drop_0.
  by rewrite firstn_all.
Qed.

End RenderRectangles.

Section LayerFacts.
Context {V Page : Type} `{!ViewportLike V}.
Import AnonymizationLayer.

(** Without a factory the loop stops at the first truthy entry, before
    anything is painted. *)
Lemma renderRectangles_from_undefined (n i : nat) (st : Store) :
  renderRectangles_from None n i st =
    (match non_null (take n (drop i (rectangles st))) with
     | [] => Normal tt
     | _ :: _ => Throw (TypeError "rectangleFactory is not a function")
     end, st).
Proof.
  revert i. induction n as [|n IH]; intros i.
  - reflexivity.
  - simpl. unfold bind at 1. unfold get at 1.
    rewrite index_drop.
    assert (Htl := drop_S_tail (rectangles st) i).
    destruct (drop i (rectangles st)) as [|e t] eqn:Hd.
    + simpl. rewrite IH, Htl. by rewrite take_nil.
    + unfold non_null. simpl.
      destruct (truthy e) as [r|] eqn:He; simpl.
      * reflexivity.
      * by rewrite IH, Htl.
Qed.

Lemma update_spec (p : Parameters V Page) (st : Store) :
  update p st =
    match non_null (rectangles st) with
    | [] => (Normal tt,
             {| canvas := removeAttribute "hidden" (canvas st);
                rectangles := rectangles st |})
    | _ :: _ => (Throw (TypeError "rectangleFactory is not a function"), st)
    end.
Proof.
  unfold update, renderRectangles, bind, get.
  rewrite renderRectangles_from_undefined, drop_0, firstn_all.
  by destruct (non_null (rectangles st)).
Qed.

(** Any array that holds a rectangle makes [update] throw, with the
    store as it was. *)
Lemma update_throws_when_a_rectangle_is_listed (p : Parameters V Page)
    (c : Canvas) (before after : list Entry) (r : Rectangle) :
  update p {| canvas := c; rectangles := before ++ Rect r :: after |} =
    (Throw (TypeError "rectangleFactory is not a function"),
     {| canvas := c; rectangles := before ++ Rect r :: after |}).
Proof.
  rewrite update_spec. cbn [rectangles].
  assert (Hn : non_null (before ++ Rect r :: after)
               = (non_null before ++ r :: non_null after)%list).
  { unfold non_null. by rewrite omap_app. }
  rewrite Hn. by destruct (non_null before).
Qed.

(** A repaint, replayed at one point: the fill style becomes black, and
    the point becomes black when one of the painted elements covers it. *)
Lemma replay_paint_calls (f : Rectangle -> Element) (rs : list Entry)
    (px py : Q) (style : string) (pix : Pixel) :
  fold_left (replay_op px py) (paint_calls f rs) (style, pix) =
    match painted_elements f rs with
    | [] => (style, pix)
    | _ :: _ =>
        ("black",
         if covered_by (painted_elements f rs) px py then Filled "black"
         else pix)
    end.
Proof.
  unfold paint_calls, painted_elements.
  revert style pix. induction (non_null rs) as [|r l IH]; intros style pix.
  - reflexivity.
  - cbn [flat_map]. rewrite fold_left_app.
    assert (Hone : fold_left (replay_op px py) (paint_call (f r)) (style, pix)
                   = if isRenderable (f r)
                     then ("black",
                           if covers (viewportRectangle (f r)) px py
                           then Filled "black" else pix)
                     else (style, pix)).
    { unfold paint_call. destruct (isRenderable (f r)); [|reflexivity].
      cbn [fold_left replay_op fst snd].
      by destruct (covers (viewportRectangle (f r)) px py). }
    rewrite Hone. clear Hone. unfold covered_by.
    destruct (isRenderable (f r)); rewrite IH; [|reflexivity]. clear IH.
    unfold covered_by. cbn [app existsb].
    generalize (flat_map
      (fun r0 => if isRenderable (f r0) then [f r0] else []) l) as els.
    intros els.
    destruct (covers (viewportRectangle (f r)) px py);
      destruct els as [|el els]; cbn [orb]; try reflexivity.
    by destruct (existsb _ (el :: els)).
Qed.

(** X14: repainting the array a second time with the same factory leaves
    every pixel of the bitmap as the first repaint left it. *)
Lemma repaint_twice_same_pixels (p : Parameters V Page)
    (f : Rectangle -> Element) (st : Store) (px py : Q) :
  let once := state_after (renderRectangles p (Some f)) st in
  let twice := state_after (renderRectangles p (Some f)) once in
  pixel (canvas twice) px py = pixel (canvas once) px py.
Proof.
  intros once twice. subst once twice. unfold state_after.
  rewrite !renderRectangles_spec. cbn [snd canvas rectangles].
  unfold pixel, append_ops. cbn [context2d].
  rewrite !fold_left_app.
  destruct (fold_left (replay_op px py) (context2d (canvas st))
              ("#000000", Transparent)) as [style pix].
  rewrite (replay_paint_calls f (rectangles st) px py style pix).
  destruct (painted_elements f (rectangles st)) as [|el els] eqn:Hels.
  - by rewrite replay_paint_calls, Hels.
  - rewrite replay_paint_calls, Hels. cbn [snd].
    by destruct (covered_by (el :: els) px py).
Qed.

Lemma render_spec (p : Parameters V Page) (s : Session V) :
  render p s =
    (Normal tt,
     {| store :=
          {| canvas := append_ops (paint_calls (factory_of p)
                                     (rectangles (store s)))
                         (canvas (store s));
             rectangles := rectangles (store s) |};
        listeners := listeners s ++
          [{| g_viewport := viewport p;
              rerender := renderRectangles p (Some (factory_of p));
              rectangleFactory := factory_of p;
              painting := false; createRectangle := None;
              rectangle := None |}];
        reported := reported s |}).
Proof.
  unfold render, bind, in_session_store, zoom, registerCanvasEvents, modify.
  fold (factory_of p). by rewrite renderRectangles_spec.
Qed.

Lemma paint_calls_create (p : Parameters V Page) (rs : list Entry) :
  paint_calls (factory_of p) rs =
    flat_map (fun r => [SetFillStyle "black";
                        FillRect (viewportRectangle (factory_of p r))])
      (non_null rs).
Proof. reflexivity. Qed.

Lemma paints_paint_calls (p : Parameters V Page) (rs : list Entry) :
  paints (paint_calls (factory_of p) rs) =
    map (fun r => viewportRectangle (factory_of p r)) (non_null rs).
Proof.
  rewrite paint_calls_create. generalize (factory_of p) as f. intros f.
  induction (non_null rs) as [|r l IH]; [reflexivity|].
  simpl. rewrite <- IH. reflexivity.
Qed.

End LayerFacts.

(** ** The mouse handlers *)

Section HandlerFacts.
Context {V Page : Type} `{!ViewportLike V}.
Import AnonymizationLayer.

Lemma set_rectangle_same (g : Gesture V) :
  set_rectangle (rectangle g) g = g.
Proof. by destruct g. Qed.

Lemma mousedown_spec (e : MouseEvent) (g : Gesture V) (st : Store) :
  mousedown e (g, st) =
    (Normal tt,
     (if painting g then g
      else set_painting true (set_createRectangle (Some e) g), st)).
Proof.
  unfold mousedown, bind, closure, get, ret, assign, modify; simpl.
  by destruct (painting g).
Qed.

Lemma mouseup_idle (e : MouseEvent) (g : Gesture V) (st : Store) :
  painting g = false -> mouseup e (g, st) = (Normal tt, (g, st)).
Proof.
  intros Hp. unfold mouseup, bind, closure, get, ret; simpl. by rewrite Hp.
Qed.

Lemma mouseup_painting (p : Parameters V Page) (e0 e : MouseEvent)
    (g : Gesture V) (st : Store) :
  registered_by p g -> painting g = true -> createRectangle g = Some e0 ->
  let r := createRectangle_body (viewport p) e0 e in
  mouseup e (g, st) =
    (Normal tt,
     (set_painting false g,
      {| canvas := append_ops
                     (paint_calls (factory_of p) (rectangles st ++ [Rect r]))
                     (canvas st);
         rectangles := rectangles st ++ [Rect r] |})).
Proof.
  intros (Hv & Hr & Hf) Hp Hc r.
  unfold mouseup, bind, closure, call_createRectangle, closure, bind, get,
    ret, in_store, zoom, push, assign, modify; simpl.
  rewrite Hp; simpl. rewrite Hc; simpl. rewrite Hr, Hv; simpl.
  by rewrite renderRectangles_spec.
Qed.

Lemma mousemove_idle (p : Parameters V Page) (e : MouseEvent)
    (g : Gesture V) (st : Store) :
  registered_by p g -> painting g = false ->
  mousemove e (g, st) =
    (Normal tt,
     (set_rectangle None g,
      {| canvas := append_ops (cleanup_calls p g (rectangles st)) (canvas st);
         rectangles := rectangles st |})).
Proof.
  intros (Hv & Hr & Hf) Hp.
  unfold mousemove, cleanup_calls, bind, closure, bind, get, ret, in_store,
    zoom, element_clear, on_canvas, assign, modify; simpl.
  destruct (rectangle g) as [r|] eqn:Hrect; simpl.
  - rewrite Hr, renderRectangles_spec. simpl. rewrite Hp.
    by rewrite ctx_call_append, append_ops_app.
  - rewrite Hp, append_ops_nil. rewrite <- Hrect, set_rectangle_same.
    by destruct st.
Qed.

Lemma mousemove_painting (p : Parameters V Page) (e0 e : MouseEvent)
    (g : Gesture V) (st : Store) :
  registered_by p g -> painting g = true -> createRectangle g = Some e0 ->
  let preview := factory_of p (createRectangle_body (viewport p) e0 e) in
  mousemove e (g, st) =
    (Normal tt,
     (set_rectangle (Some preview) g,
      {| canvas := append_ops
                     (cleanup_calls p g (rectangles st) ++
                      [SetFillStyle "black";
                       FillRect (viewportRectangle preview)])
                     (canvas st);
         rectangles := rectangles st |})).
Proof.
  intros (Hv & Hr & Hf) Hp Hc preview. subst preview.
  unfold mousemove, cleanup_calls, bind, closure, call_createRectangle,
    closure, bind, get, ret, in_store, zoom, element_clear, on_canvas,
    assign, modify; simpl.
  destruct (rectangle g) as [r|] eqn:Hrect; simpl.
  - rewrite Hr, renderRectangles_spec. simpl. rewrite Hp; simpl.
    rewrite Hc; simpl. rewrite Hf, Hv.
    by rewrite !ctx_call_append, !append_ops_app.
  - rewrite Hp; simpl. rewrite Hc; simpl. rewrite Hf, Hv.
    by rewrite !ctx_call_append, !append_ops_app.
Qed.

End HandlerFacts.

(** ** Sessions with the one listener that [render] registers *)

Section Reachability.
Context {V Page : Type} `{!ViewportLike V}.
Import AnonymizationLayer.

Lemma fire_single (s : Session V) (g : Gesture V) (ev : Event) :
  listeners s = [g] ->
  fire s ev =
    match handler ev (g, store s) with
    | (Normal _, (g', st')) =>
        {| store := st'; listeners := [g']; reported := reported s |}
    | (Throw err, (g', st')) =>
        {| store := st'; listeners := [g'];
           reported := reported s ++ [err] |}
    end.
Proof.
  intros Hl. unfold fire. rewrite Hl. simpl. unfold run_listener.
  destruct (handler ev (g, store s)) as [[u|err] [g' st']]; reflexivity.
Qed.

Lemma fire_all_snoc (s : Session V) (evs : list Event) (ev : Event) :
  fire_all s (evs ++ [ev]) = fire (fire_all s evs) ev.
Proof. unfold fire_all. by rewrite fold_left_app. Qed.

Lemma anchor_after_snoc (evs : list Event) (ev : Event) :
  anchor_after (evs ++ [ev]) = anchor_step (anchor_after evs) ev.
Proof. unfold anchor_after. by rewrite fold_left_app. Qed.

Lemma rendered_listener (p : Parameters V Page) (s0 : Session V) :
  listeners s0 = [] ->
  exists g, listeners (rendered p s0) = [g] /\ tracks p None g /\
            reported (rendered p s0) = reported s0.
Proof.
  intros H0. unfold rendered, state_after. rewrite render_spec. simpl.
  rewrite H0. eexists. split; [reflexivity|]. split; [|reflexivity].
  split; [|reflexivity]. repeat split.
Qed.

(** One event keeps the single listener in step with the gesture state,
    and no handler throws. *)
Lemma fire_tracks (p : Parameters V Page) (s : Session V) (g : Gesture V)
    (a : option MouseEvent) (ev : Event) :
  listeners s = [g] -> tracks p a g ->
  exists g', listeners (fire s ev) = [g'] /\
             tracks p (anchor_step a ev) g' /\
             reported (fire s ev) = reported s.
Proof.
  intros Hl [Hreg Ha]. rewrite (fire_single s g ev Hl).
  destruct ev as [e|e|e]; simpl.
  - rewrite mousedown_spec.
    destruct a as [e0|].
    + destruct Ha as [Hp Hc]. rewrite Hp. eexists. repeat split; simpl; auto;
        apply Hreg.
    + rewrite Ha. eexists. repeat split; simpl; auto; apply Hreg.
  - destruct a as [e0|].
    + destruct Ha as [Hp Hc].
      rewrite (mouseup_painting p e0 e g (store s) Hreg Hp Hc).
      eexists. repeat split; simpl; auto; apply Hreg.
    + rewrite (mouseup_idle e g (store s) Ha).
      eexists. repeat split; simpl; auto; apply Hreg.
  - destruct a as [e0|].
    + destruct Ha as [Hp Hc].
      rewrite (mousemove_painting p e0 e g (store s) Hreg Hp Hc).
      eexists. repeat split; simpl; auto; apply Hreg.
    + rewrite (mousemove_idle p e g (store s) Hreg Ha).
      eexists. repeat split; simpl; auto; apply Hreg.
Qed.

Lemma reachable_tracks (p : Parameters V Page) (s0 : Session V)
    (evs : list Event) :
  listeners s0 = [] ->
  exists g, listeners (fire_all (rendered p s0) evs) = [g] /\
            tracks p (anchor_after evs) g /\
            reported (fire_all (rendered p s0) evs) = reported s0.
Proof.
  intros H0. induction evs as [|ev evs IH] using rev_ind.
  - apply rendered_listener, H0.
  - destruct IH as (g & Hl & Ht & Hr).
    rewrite fire_all_snoc, anchor_after_snoc.
    destruct (fire_tracks p _ g _ ev Hl Ht) as (g' & Hl' & Ht' & Hr').
    exists g'. repeat split; try apply Ht'; auto. congruence.
Qed.

End Reachability.

(** ** Properties of the layer *)

Section LayerProperties.
Context {V Page : Type} `{!ViewportLike V}.
Import AnonymizationLayer.

(** C5: [AnonymizationLayer.render] returns normally; its loop skips the
    [null] and [undefined] entries and only those, and sends one paint
    operation (fill style, then [fillRect]) to the context for each
    remaining rectangle, in the order of the list.  So [N] rectangles
    give [N] paint operations, and an empty list gives none. *)
Theorem render_paints_each_rectangle_in_order (p : Parameters V Page)
    (s : Session V) :
  let before := context2d (canvas (store s)) in
  let after := context2d (canvas (store (rendered p s))) in
  let kept := non_null (rectangles (store s)) in
  outcome (render p) s = Normal tt /\
  (truthy Null = None /\ truthy Undefined = None /\
   forall r, truthy (Rect r) = Some r) /\
  after =
    (before ++
     flat_map (fun r =>
         [SetFillStyle "black";
          FillRect (viewportRectangle
                      (AnonymizationElementFactory.create r (page p)
                         (viewport p)))]) kept)%list /\
  paints after =
    (paints before ++
     map (fun r => viewportRectangle
                     (AnonymizationElementFactory.create r (page p)
                        (viewport p))) kept)%list /\
  length (paints after) = (length (paints before) + length kept)%nat /\
  (forall c gs errs,
     context2d (canvas (store (rendered p
        {| store := {| canvas := c; rectangles := [] |};
           listeners := gs; reported := errs |}))) = context2d c).
Proof.
  intros before after kept. subst before after kept.
  unfold rendered, state_after, outcome. rewrite render_spec.
  split; [reflexivity|]. split; [repeat split|].
  split; [reflexivity|]. split.
  - cbn [snd store canvas]. unfold append_ops. cbn [context2d].
    rewrite paints_app. f_equal. apply paints_paint_calls.
  - split.
    + cbn [snd store canvas]. unfold append_ops. cbn [context2d].
      rewrite paints_app, length_app. f_equal.
      rewrite paints_paint_calls. apply length_map.
    + intros c gs errs. rewrite render_spec.
      cbn [snd store canvas rectangles]. unfold append_ops.
      cbn [context2d]. unfold paint_calls, non_null. simpl.
      apply app_nil_r.
Qed.

(** C2: on a canvas with the listeners of one [render], a [mouseup] that
    fires while [painting] is true appends exactly one rectangle to the
    shared array: its first corner is the page-space point of the anchor
    of the gesture (the event of the [mousedown] that started it), its
    second corner the page-space point of the release, whatever its width
    and height.  Then every rectangle of the array, the new one last, is
    painted again, each by a fill style and a [fillRect]; and [painting]
    is false afterwards.  No handler has thrown. *)
Theorem mouseup_appends_and_repaints (p : Parameters V Page)
    (s0 : Session V) (evs : list Event) (e : MouseEvent) (g : Gesture V) :
  listeners s0 = [] ->
  listeners (fire_all (rendered p s0) evs) = [g] ->
  painting g = true ->
  let s := fire_all (rendered p s0) evs in
  let vp := viewport p in
  exists e0,
    anchor_after evs = Some e0 /\
    let point0 :=
      convertToPdfPoint vp (offsetX e0) (height vp - offsetY e0)%Q in
    let point1 :=
      convertToPdfPoint vp (offsetX e) (height vp - offsetY e)%Q in
    let r := {| x0 := fst point0; y0 := snd point0;
                x1 := fst point1; y1 := snd point1 |} in
    let repaint :=
      flat_map (fun r' =>
          [SetFillStyle "black";
           FillRect (viewportRectangle
                       (AnonymizationElementFactory.create r' (page p) vp))])
        (non_null (rectangles (store s)) ++ [r]) in
    fire s (MouseUp e) =
      {| store :=
           {| canvas := append_ops repaint (canvas (store s));
              rectangles := rectangles (store s) ++ [Rect r] |};
         listeners := [set_painting false g];
         reported := reported s |} /\
    rectangles (store (fire s (MouseUp e))) =
      (rectangles (store s) ++ [Rect r])%list /\
    context2d (canvas (store (fire s (MouseUp e)))) =
      (context2d (canvas (store s)) ++ repaint)%list /\
    attributes (canvas (store (fire s (MouseUp e)))) =
      attributes (canvas (store s)) /\
    map painting (listeners (fire s (MouseUp e))) = [false].
Proof.
  intros H0 Hl Hp s vp.
  destruct (reachable_tracks p s0 evs H0) as (g' & Hl' & [Hreg Ha] & Hr).
  assert (g' = g) by congruence. subst g'.
  destruct (anchor_after evs) as [e0|]; simpl in Ha; [|congruence].
  destruct Ha as [_ Hc]. exists e0. split; [reflexivity|].
  intros point0 point1 r repaint.
  assert (Hfire : fire s (MouseUp e) =
      {| store :=
           {| canvas := append_ops repaint (canvas (store s));
              rectangles := rectangles (store s) ++ [Rect r] |};
         listeners := [set_painting false g];
         reported := reported s |}).
  { unfold s. rewrite (fire_single _ g (MouseUp e) Hl). cbn [handler].
    rewrite (mouseup_painting p e0 e g _ Hreg Hp Hc).
    assert (Hn : non_null (rectangles (store (fire_all (rendered p s0) evs))
                           ++ [Rect (createRectangle_body (viewport p) e0 e)])
                 = (non_null (rectangles (store (fire_all (rendered p s0) evs)))
                    ++ [r])%list).
    { unfold non_null. by rewrite omap_app. }
    rewrite paint_calls_create, Hn. reflexivity. }
  rewrite Hfire. repeat split; reflexivity.
Qed.

(** C3, as the code has it: after one [render] and any events, a
    [mousemove] first clears the preview that is still pending, if there
    is one, and then repaints the array, each rectangle by a fill style
    and a [fillRect].  While [painting] it then paints a new preview,
    computed from the page-space points of the anchor and of the pointer,
    and keeps it as pending; this preview spans from the anchor to the
    pointer when the viewport converts both canvas points to page space
    and back without loss and neither point lies above the top edge of
    the canvas.  While not [painting] it paints nothing more; when no
    preview is pending it changes nothing at all. *)
Theorem mousemove_clears_pending_preview (p : Parameters V Page)
    (s0 : Session V) (evs : list Event) (e : MouseEvent) (g : Gesture V) :
  listeners s0 = [] ->
  listeners (fire_all (rendered p s0) evs) = [g] ->
  let s := fire_all (rendered p s0) evs in
  let rs := rectangles (store s) in
  let vp := viewport p in
  let repaint :=
    flat_map (fun r =>
        [SetFillStyle "black";
         FillRect (viewportRectangle
                     (AnonymizationElementFactory.create r (page p) vp))])
      (non_null rs) in
  let cleanup :=
    match rectangle g with
    | Some r => ClearRect (viewportRectangle r) :: repaint
    | None => []
    end in
  match anchor_after evs with
  | Some e0 =>
      painting g = true /\
      let point0 :=
        convertToPdfPoint vp (offsetX e0) (height vp - offsetY e0)%Q in
      let point1 :=
        convertToPdfPoint vp (offsetX e) (height vp - offsetY e)%Q in
      let preview :=
        AnonymizationElementFactory.create
          {| x0 := fst point0; y0 := snd point0;
             x1 := fst point1; y1 := snd point1 |} (page p) vp in
      fire s (MouseMove e) =
        {| store :=
             {| canvas := append_ops
                  (cleanup ++
                   [SetFillStyle "black";
                    FillRect (viewportRectangle preview)])
                  (canvas (store s));
                rectangles := rs |};
           listeners := [set_rectangle (Some preview) g];
           reported := reported s |} /\
      context2d (canvas (store (fire s (MouseMove e)))) =
        (context2d (canvas (store s)) ++ cleanup ++
         [SetFillStyle "black"; FillRect (viewportRectangle preview)])%list /\
      (round_trips vp (offsetX e0) (height vp - offsetY e0) ->
       round_trips vp (offsetX e) (height vp - offsetY e) ->
       (0 <= offsetY e0)%Q -> (0 <= offsetY e)%Q ->
       Rect4_eq (viewportRectangle preview)
         (offsetX e0, offsetY e0,
          offsetX e - offsetX e0, offsetY e - offsetY e0)%Q)
  | None =>
      painting g = false /\
      fire s (MouseMove e) =
        {| store :=
             {| canvas := append_ops cleanup (canvas (store s));
                rectangles := rs |};
           listeners := [set_rectangle None g];
           reported := reported s |} /\
      context2d (canvas (store (fire s (MouseMove e)))) =
        (context2d (canvas (store s)) ++ cleanup)%list /\
      (rectangle g = None -> fire s (MouseMove e) = s)
  end.
Proof.
  intros H0 Hl s rs vp repaint cleanup.
  destruct (reachable_tracks p s0 evs H0) as (g' & Hl' & [Hreg Ha] & Hr).
  assert (g' = g) by congruence. subst g'.
  assert (Hclean : cleanup_calls p g rs = cleanup) by reflexivity.
  destruct (anchor_after evs) as [e0|]; simpl in Ha.
  - destruct Ha as [Hp Hc]. split; [exact Hp|]. intros point0 point1 preview.
    assert (Hfire : fire s (MouseMove e) =
        {| store :=
             {| canvas := append_ops
                  (cleanup ++
                   [SetFillStyle "black";
                    FillRect (viewportRectangle preview)])
                  (canvas (store s));
                rectangles := rs |};
           listeners := [set_rectangle (Some preview) g];
           reported := reported s |}).
    { unfold s at 1. rewrite (fire_single _ g (MouseMove e) Hl). cbn [handler].
      rewrite (mousemove_painting p e0 e g _ Hreg Hp Hc). fold s rs.
      rewrite Hclean. reflexivity. }
    split; [exact Hfire|]. split; [by rewrite Hfire|].
    intros [Hx0 Hy0] [Hx1 Hy1] Hpos0 Hpos1.
    subst preview point0 point1.
    unfold Rect4_eq, AnonymizationElementFactory.create.
    cbn [x0 y0 x1 y1 viewportRectangle].
    assert (Habs : forall t,
               (0 <= t)%Q -> (Qabs (height vp - t - height vp) == t)%Q).
    { intros t Ht.
      assert (Heq : (height vp - t - height vp == - t)%Q) by ring.
      rewrite Heq, Qabs_opp. by apply Qabs_pos. }
    rewrite Hx0, Hx1, Hy0, Hy1, !Habs by assumption.
    repeat split; reflexivity.
  - split; [exact Ha|].
    assert (Heq : fire s (MouseMove e) =
        {| store :=
             {| canvas := append_ops cleanup (canvas (store s));
                rectangles := rs |};
           listeners := [set_rectangle None g];
           reported := reported s |}).
    { unfold s at 1. rewrite (fire_single _ g (MouseMove e) Hl). cbn [handler].
      rewrite (mousemove_idle p e g _ Hreg Ha). fold s rs.
      rewrite Hclean. reflexivity. }
    split; [exact Heq|]. split; [by rewrite Heq|].
    intros Hnone. rewrite Heq. subst cleanup.
    rewrite Hnone, append_ops_nil.
    rewrite <- Hnone, set_rectangle_same.
    fold s in Hl. rewrite <- Hl. unfold rs. by destruct s as [[] ? ?].
Qed.

(** C8: a second [update] with the same parameters and an unchanged array
    leaves the canvas as the first one left it: the same context log,
    hence the same pixel at every point, and the same attributes; both
    calls complete in the same way. *)
Theorem update_twice_same_canvas (p : Parameters V Page) (st : Store) :
  let once := state_after (update p) st in
  let twice := state_after (update p) once in
  canvas twice = canvas once /\
  (forall px py, pixel (canvas twice) px py = pixel (canvas once) px py) /\
  attributes (canvas twice) = attributes (canvas once) /\
  rectangles twice = rectangles st /\
  outcome (update p) once = outcome (update p) st.
Proof.
  intros once twice.
  assert (Hc : canvas twice = canvas once /\ rectangles twice = rectangles st
               /\ outcome (update p) once = outcome (update p) st).
  { subst once twice. unfold state_after, outcome. rewrite !update_spec.
    destruct (non_null (rectangles st)) as [|r l] eqn:Hn; simpl.
    - rewrite Hn. simpl.
      unfold removeAttribute. simpl. by rewrite delete_delete_eq.
    - rewrite Hn. auto. }
  destruct Hc as (Hc & Hr & Ho). rewrite Hc. auto.
Qed.

End LayerProperties.

(** ** The layer on the sample page *)

Section LayerOnSamplePage.
Import AnonymizationLayer.

(** C1: on a hidden canvas and an array that holds one rectangle,
    [update] throws a [TypeError] at the call of the factory it did not
    pass on: nothing is painted and the canvas stays hidden. *)
Theorem update_throws_at_first_rectangle :
  let st := {| canvas := hidden_canvas; rectangles := [Rect sample_rectangle] |} in
  update sample_parameters st =
    (Throw (TypeError "rectangleFactory is not a function"), st) /\
  paints (context2d (canvas (state_after (update sample_parameters) st))) = [] /\
  attributes (canvas (state_after (update sample_parameters) st)) !! "hidden"
    = Some "true".
Proof.
  intros st. unfold state_after. rewrite update_spec. subst st.
  split; [reflexivity|]. split; reflexivity.
Qed.

Lemma mouseup_appends_and_repaints_witness :
  let s0 := sample_session [Rect sample_rectangle] in
  let s := fire_all (rendered sample_parameters s0) [MouseDown (at_point 10 10)] in
  listeners s0 = [] /\
  listeners s = [dragging_listener] /\
  painting dragging_listener = true /\
  (exists r,
     rectangles (store (fire s (MouseUp (at_point 50 40)))) =
       [Rect sample_rectangle; Rect r] /\
     Rectangle_eq r {| x0 := 10; y0 := 90; x1 := 50; y1 := 60 |}) /\
  Forall2 Rect4_eq
    (paints (context2d (canvas (store (fire s (MouseUp (at_point 50 40)))))))
    [(10, 80, 30, -40)%Q; (10, 80, 30, -40)%Q; (10, 10, 40, 30)%Q] /\
  map painting (listeners (fire s (MouseUp (at_point 50 40)))) = [false].
Proof.
  intros s0 s.
  assert (H0 : listeners s0 = []) by reflexivity.
  assert (Hl : listeners s = [dragging_listener]) by reflexivity.
  assert (Hp : painting dragging_listener = true) by reflexivity.
  split; [exact H0|]. split; [exact Hl|]. split; [exact Hp|].
  destruct (mouseup_appends_and_repaints sample_parameters s0
              [MouseDown (at_point 10 10)] (at_point 50 40)
              dragging_listener H0 Hl Hp)
    as (e0 & Ha & _ & Hrs & Hlog & _ & Hidle).
  injection Ha as <-. fold s in Hrs, Hlog, Hidle.
  split; [|split; [|exact Hidle]].
  - eexists. split; [exact Hrs|]. repeat split; vm_compute; reflexivity.
  - rewrite Hlog. vm_compute. repeat constructor.
Defined.

(** C3: after a drag during which the pointer moved, [painting] is false
    again, and yet the next [mousemove] changes the canvas: it clears the
    preview left by the drag and repaints the array. *)
Lemma mousemove_after_drag_mutates_canvas :
  let s := fire_all (rendered sample_parameters (sample_session []))
             [MouseDown (at_point 10 10); MouseMove (at_point 30 30);
              MouseUp (at_point 50 40)] in
  map painting (listeners s) = [false] /\
  canvas (store (fire s (MouseMove (at_point 60 60)))) <> canvas (store s).
Proof.
  intros s. split; [reflexivity|].
  intros H. apply (f_equal (fun c => length (context2d c))) in H.
  vm_compute in H. discriminate H.
Qed.

Lemma mousemove_clears_pending_preview_witness :
  let s0 := sample_session [Rect sample_rectangle] in
  let s := fire_all (rendered sample_parameters s0) [MouseDown (at_point 10 10)] in
  listeners s0 = [] /\
  listeners s = [dragging_listener] /\
  Forall2 Rect4_eq
    (paints (context2d (canvas (store (fire s (MouseMove (at_point 30 30)))))))
    [(10, 80, 30, -40)%Q; (10, 10, 20, 20)%Q] /\
  (exists preview,
     map rectangle (listeners (fire s (MouseMove (at_point 30 30))))
       = [Some preview] /\
     Rect4_eq (viewportRectangle preview) (10, 10, 20, 20)%Q).
Proof.
  intros s0 s.
  assert (H0 : listeners s0 = []) by reflexivity.
  assert (Hl : listeners s = [dragging_listener]) by reflexivity.
  split; [exact H0|]. split; [exact Hl|].
  pose proof (mousemove_clears_pending_preview sample_parameters s0
                [MouseDown (at_point 10 10)] (at_point 30 30)
                dragging_listener H0 Hl) as Hm.
  cbv zeta in Hm.
  change (anchor_after [MouseDown (at_point 10 10)])
    with (Some (at_point 10 10)) in Hm.
  cbv iota in Hm. destruct Hm as (_ & Heq & Hlog & _).
  fold s in Heq, Hlog. split.
  - rewrite Hlog. vm_compute. repeat constructor.
  - rewrite Heq. eexists. split; [reflexivity|].
    vm_compute. repeat constructor.
Defined.

End LayerOnSamplePage.

(** ** The builder *)

Section BuilderFacts.
Context {V Page : Type} `{!ViewportLike V}.
Import AnonymizationLayerBuilder.

Lemma set_pending_same (w : World V Page) : set_pending (pending w) w = w.
Proof. by destruct w. Qed.

Lemma delete_beyond {A} (l : list A) (i : nat) :
  l !! i = None -> delete i l = l.
Proof.
  revert i. induction l as [|x l IH]; intros [|i] Hi; simpl in *;
    try reflexivity; try discriminate.
  f_equal. by apply IH.
Qed.

Lemma callback_cancelled (viewport : V) (intent : string) (w : World V Page) :
  _cancelled w = true -> render_callback viewport intent w = (Normal tt, w).
Proof.
  intros Hc. unfold render_callback, bind, get, ret. by rewrite Hc.
Qed.

(** The update path: the canvas is resized, then [AnonymizationLayer.update]
    either reveals it or throws. *)
Lemma callback_update (viewport : V) (intent : string) (w : World V Page)
    (c : Canvas) :
  _cancelled w = false -> canvas w = Some c ->
  render_callback viewport intent w =
    match non_null (rectangles w) with
    | [] => (Normal tt,
             set_canvas (Some (removeAttribute "hidden" (resized viewport w c))) w)
    | _ :: _ => (Throw (TypeError "rectangleFactory is not a function"),
                 set_canvas (Some (resized viewport w c)) w)
    end.
Proof.
  intros Hc Hcan.
  unfold render_callback, bind, get, ret. rewrite Hc, Hcan.
  unfold updateCanvas, bind, get, modify. rewrite Hcan.
  unfold in_layer, AnonymizationLayer.in_session_store, zoom.
  cbn [canvas set_canvas rectangles listeners reported].
  rewrite update_spec. cbn [AnonymizationLayer.store session_of]. simpl.
  destruct (non_null (rectangles w)); reflexivity.
Qed.

End BuilderFacts.

Section BuilderSteps.
Context {V Page : Type} `{!ViewportLike V}.
Import AnonymizationLayerBuilder.

Lemma callback_create (viewport : V) (intent : string) (w : World V Page) :
  _cancelled w = false -> canvas w = None -> listeners w = [] ->
  render_callback viewport intent w = (Normal tt, first_render viewport w).
Proof.
  intros Hc Hcan Hl.
  unfold render_callback, bind, get, ret. rewrite Hc, Hcan.
  unfold createElement_canvas, updateCanvas, appendChild_canvas,
    translate_canvas, bind, get, modify.
  cbn [canvas set_canvas]. unfold in_layer.
  cbn [canvas rectangles listeners reported pageDiv].
  rewrite render_spec. reflexivity.
Qed.

Lemma fulfil_cancelled (i : nat) (w : World V Page) :
  _cancelled w = true -> fulfil i w = set_pending (delete i (pending w)) w.
Proof.
  intros Hc. unfold fulfil.
  destruct (pending w !! i) as [[viewport intent]|] eqn:Hi.
  - by rewrite callback_cancelled.
  - rewrite (delete_beyond _ _ Hi). by rewrite set_pending_same.
Qed.

Lemma step_cancelled (w : World V Page) (a : Action V) :
  _cancelled w = true -> _cancelled (step w a) = true.
Proof.
  intros Hc. destruct a as [viewport intent| | |i|i reason|ev]; simpl; auto.
  - unfold hide, state_after, bind, get, ret, modify.
    by destruct (canvas w).
  - rewrite (fulfil_cancelled i w Hc). exact Hc.
  - unfold reject. by destruct (pending w !! i).
  - unfold mouse. by destruct (canvas w).
Qed.

Lemma run_cancelled (w : World V Page) (acts : list (Action V)) :
  _cancelled w = true -> _cancelled (run w acts) = true.
Proof.
  revert w. induction acts as [|a acts IH]; intros w Hc; simpl; auto.
  apply IH, step_cancelled, Hc.
Qed.

Lemma step_translated_with_canvas (w : World V Page) (a : Action V) :
  translated_with_canvas w -> translated_with_canvas (step w a).
Proof.
  unfold translated_with_canvas. intros Hinv.
  destruct a as [viewport intent| | |i|i reason|ev]; simpl.
  - exact Hinv.
  - exact Hinv.
  - unfold hide, state_after, bind, get, ret, modify.
    destruct (canvas w) eqn:Hcan; simpl; [exact Hinv|].
    by rewrite Hcan.
  - unfold fulfil.
    destruct (pending w !! i) as [[viewport intent]|] eqn:Hi; [|exact Hinv].
    set (w1 := set_pending (delete i (pending w)) w).
    destruct (_cancelled w) eqn:Hc.
    + rewrite callback_cancelled by exact Hc. exact Hinv.
    + destruct (canvas w) as [c|] eqn:Hcan.
      * rewrite (callback_update viewport intent w1 c Hc Hcan).
        by destruct (non_null (rectangles w1)).
      * destruct Hinv as (Ht & Hn & Hl).
        rewrite (callback_create viewport intent w1 Hc Hcan Hl).
        cbn. by rewrite Ht, Hn.
  - unfold reject. destruct (pending w !! i); exact Hinv.
  - unfold mouse. destruct (canvas w) eqn:Hcan; simpl; [exact Hinv|].
    by rewrite Hcan.
Qed.

Lemma run_translated_with_canvas (w : World V Page) (acts : list (Action V)) :
  translated_with_canvas w -> translated_with_canvas (run w acts).
Proof.
  revert w. induction acts as [|a acts IH]; intros w Hinv; simpl; auto.
  apply IH, step_translated_with_canvas, Hinv.
Qed.

(** The create path does not depend on the listeners recorded before. *)
Lemma callback_create_any (viewport : V) (intent : string) (w : World V Page) :
  _cancelled w = false -> canvas w = None ->
  render_callback viewport intent w = (Normal tt, first_render viewport w).
Proof.
  intros Hc Hcan.
  unfold render_callback, bind, get, ret. rewrite Hc, Hcan.
  unfold createElement_canvas, updateCanvas, appendChild_canvas,
    translate_canvas, bind, get, modify.
  cbn [canvas set_canvas]. unfold in_layer.
  cbn [canvas rectangles listeners reported pageDiv].
  rewrite render_spec. reflexivity.
Qed.

(** What a resolving fetch does, in all cases. *)
Lemma fulfil_cases (i : nat) (w : World V Page) :
  fulfil i w =
    match pending w !! i with
    | None => w
    | Some (viewport, intent) =>
        let w1 := set_pending (delete i (pending w)) w in
        if _cancelled w then w1
        else match canvas w with
             | None => first_render viewport w1
             | Some c =>
                 match non_null (rectangles w) with
                 | [] => set_canvas
                           (Some (removeAttribute "hidden" (resized viewport w1 c)))
                           w1
                 | _ :: _ =>
                     report_unhandled
                       (TypeError "rectangleFactory is not a function")
                       (set_canvas (Some (resized viewport w1 c)) w1)
                 end
             end
    end.
Proof.
  unfold fulfil. destruct (pending w !! i) as [[viewport intent]|]; [|reflexivity].
  cbv zeta. set (w1 := set_pending (delete i (pending w)) w).
  destruct (_cancelled w) eqn:Hc.
  - by rewrite callback_cancelled.
  - destruct (canvas w) as [c|] eqn:Hcan.
    + rewrite (callback_update viewport intent w1 c Hc Hcan).
      change (rectangles w1) with (rectangles w).
      by destruct (non_null (rectangles w)).
    + by rewrite (callback_create_any viewport intent w1 Hc Hcan).
Qed.

End BuilderSteps.

(** ** Properties of the builder *)

Section BuilderProperties.
Context {V Page : Type} `{!ViewportLike V}.
Import AnonymizationLayerBuilder.

(** C4: once [cancel()] has been called, whatever happens in between, a
    [getAnnotations] fetch that resolves only leaves the list of pending
    fetches: its callback returns at once, so no canvas is created, the
    canvas that may exist is neither resized nor painted, the page
    container, the listeners and the localization service are not
    touched, and nothing is thrown.  Called right after [render], and
    followed by the resolution of that fetch, [cancel()] changes the
    cancelled flag and nothing else. *)
Theorem cancelled_render_is_dropped (w0 : World V Page)
    (acts : list (Action V)) (i : nat) (viewport : V)
    (intent : option string) :
  let w := run (state_after cancel w0) acts in
  fulfil i w = set_pending (delete i (pending w)) w /\
  canvas (fulfil i w) = canvas w /\
  created (fulfil i w) = created w /\
  pageDiv (fulfil i w) = pageDiv w /\
  translated (fulfil i w) = translated w /\
  unhandled (fulfil i w) = unhandled w /\
  run w0 [Render viewport intent; Cancel; Fulfil (length (pending w0))]
    = set_cancelled true w0.
Proof.
  intros w.
  assert (Hc : _cancelled w = true) by (apply run_cancelled; reflexivity).
  rewrite (fulfil_cancelled i w Hc).
  repeat (split; [reflexivity|]).
  unfold run. cbn [fold_left step]. unfold state_after.
  cbn [render cancel modify snd]. rewrite fulfil_cancelled by reflexivity.
  cbn [pending set_cancelled set_pending].
  assert (Hd : delete (length (pending w0))
                 (pending w0 ++ [(viewport, default "display" intent)])%list
               = pending w0).
  { rewrite delete_middle. apply app_nil_r. }
  rewrite Hd. by destruct w0.
Qed.

(** C9: [hide()] never throws.  Without a canvas it changes nothing.  With
    a canvas, the canvas that the builder holds afterwards carries the
    attribute [hidden] with value [true]; its other attributes, its size,
    its style and its context log are as before, and so is every other
    part of the builder and of what it acts on. *)
Theorem hide_marks_existing_canvas (w : World V Page) :
  outcome hide w = Normal tt /\
  match canvas w with
  | None => state_after hide w = w
  | Some c =>
      (exists c',
         canvas (state_after hide w) = Some c' /\
         attributes c' !! "hidden" = Some "true" /\
         attributes c' = <["hidden" := "true"]> (attributes c) /\
         context2d c' = context2d c /\
         canvas_width c' = canvas_width c /\
         canvas_height c' = canvas_height c /\
         style_width c' = style_width c /\
         style_height c' = style_height c) /\
      pageDiv (state_after hide w) = pageDiv w /\
      pdfPage (state_after hide w) = pdfPage w /\
      l10n (state_after hide w) = l10n w /\
      rectangles (state_after hide w) = rectangles w /\
      _cancelled (state_after hide w) = _cancelled w /\
      listeners (state_after hide w) = listeners w /\
      reported (state_after hide w) = reported w /\
      created (state_after hide w) = created w /\
      translated (state_after hide w) = translated w /\
      pending (state_after hide w) = pending w /\
      unhandled (state_after hide w) = unhandled w /\
      state_after hide w
        = set_canvas (Some (setAttribute "hidden" "true" c)) w
  end.
Proof.
  unfold hide, outcome, state_after, bind, get, ret, modify.
  destruct (canvas w) as [c|]; cbn [fst snd]; split; try reflexivity.
  split; [|repeat split].
  eexists. split; [reflexivity|]. split; [|repeat split].
  unfold setAttribute. cbn [attributes]. apply lookup_insert_eq.
Qed.

(** C10: at any time in the life of a builder, [l10n.translate] has been
    requested once if the canvas exists and never if it does not.  A
    fetch that resolves adds a request exactly when it is not cancelled
    and finds no canvas, which is when it creates the canvas, and the
    request is made on completion of that render; any later one finds
    the canvas, takes the update path and requests nothing.  So a call of
    [render] whose fetch then resolves makes the one request when the
    builder is not cancelled and has no canvas yet, and none otherwise;
    the first render of a new builder makes it, the second does not. *)
Theorem translate_requested_once_at_creation (pageDiv0 : PageDiv)
    (pdfPage0 : Page) (rectangles0 : list Entry) (l10n0 : option L10n)
    (acts : list (Action V)) (i : nat) (viewport : V)
    (intent : option string) :
  let w0 := constructor pageDiv0 pdfPage0 rectangles0 l10n0 in
  let w := run w0 acts in
  let creates :=
    match pending w !! i, canvas w with
    | Some _, None => negb (_cancelled w)
    | _, _ => false
    end in
  let w' := run w [Render viewport intent; Fulfil (length (pending w))] in
  translated w = match canvas w with Some _ => [l10n w] | None => [] end /\
  (if creates
   then translated (fulfil i w) = (translated w ++ [l10n w])%list /\
        is_Some (canvas (fulfil i w)) /\
        created (fulfil i w) = S (created w) /\
        unhandled (fulfil i w) = unhandled w
   else translated (fulfil i w) = translated w /\
        created (fulfil i w) = created w) /\
  match canvas w, _cancelled w with
  | None, false =>
      translated w' = [l10n w] /\ is_Some (canvas w') /\ created w' = 1%nat
  | _, _ => translated w' = translated w /\ created w' = created w
  end /\
  translated (run w0 [Render viewport intent; Fulfil 0])
    = [default NullL10n l10n0] /\
  is_Some (canvas (run w0 [Render viewport intent; Fulfil 0])) /\
  translated (run w0 [Render viewport intent; Fulfil 0;
                      Render viewport intent; Fulfil 0])
    = [default NullL10n l10n0].
Proof.
  intros w0 w creates w'.
  assert (Hinv : translated_with_canvas w).
  { apply run_translated_with_canvas. cbn. auto. }
  unfold translated_with_canvas in Hinv.
  split; [destruct (canvas w); tauto|].
  split.
  { subst creates. unfold fulfil.
    destruct (pending w !! i) as [[viewport' intent']|] eqn:Hi.
    - set (w1 := set_pending (delete i (pending w)) w).
      destruct (_cancelled w) eqn:Hc.
      + rewrite callback_cancelled by exact Hc.
        destruct (canvas w); cbn; auto.
      + destruct (canvas w) as [c|] eqn:Hcan.
        * rewrite (callback_update viewport' intent' w1 c Hc Hcan).
          destruct (non_null (rectangles w1)); cbn; auto.
        * destruct Hinv as (_ & _ & Hls).
          rewrite (callback_create viewport' intent' w1 Hc Hcan Hls).
          cbn. repeat split; eauto.
    - destruct (canvas w); auto. }
  split.
  { subst w'.
    change (run w [Render viewport intent; Fulfil (length (pending w))])
      with (fulfil (length (pending w))
              (set_pending
                 (pending w ++ [(viewport, default "display" intent)])%list w)).
    rewrite fulfil_cases.
    cbn [pending set_pending _cancelled canvas rectangles].
    rewrite (list_lookup_middle (pending w) [] _ _ eq_refl), delete_middle.
    cbv zeta. destruct (_cancelled w).
    - destruct (canvas w); cbn; auto.
    - destruct (canvas w) as [c|].
      + destruct (non_null (rectangles w)); cbn; auto.
      + destruct Hinv as (Ht & Hn & _). cbn. rewrite Ht, Hn.
        repeat split; eauto. }
  subst w0. unfold run. cbn [fold_left step]. unfold state_after.
  cbn [render modify snd]. rewrite !fulfil_cases. cbn.
  split; [reflexivity|]. split; [eauto|].
  destruct (omap truthy rectangles0); reflexivity.
Qed.

End BuilderProperties.

(** ** DefaultAnonymizationLayerFactory *)

Section FactoryProperties.
Context {V Page Value : Type} `{!ViewportLike V}.
Import DefaultAnonymizationLayerFactory.

(** C7: whatever the arguments, when no enclosing scope binds
    [imageResourcesPath] (the method and the module do not, so this is
    about the global object), [createAnonymizationBuilder] throws a
    [ReferenceError] for that name and returns no builder. *)
Theorem createAnonymizationBuilder_throws (globals : gmap string Value)
    (pageDiv : PageDiv) (pdfPage : Page) (rectangles : list Entry)
    (l10n : option L10n) :
  globals !! "imageResourcesPath" = None ->
  createAnonymizationBuilder (V:=V) globals pageDiv pdfPage rectangles l10n
    = Throw (ReferenceError "imageResourcesPath") /\
  forall builder,
    createAnonymizationBuilder (V:=V) globals pageDiv pdfPage rectangles l10n
      <> Normal builder.
Proof.
  intros Hfree. unfold createAnonymizationBuilder. rewrite Hfree.
  split; [reflexivity|]. intros builder. discriminate.
Qed.

End FactoryProperties.

Lemma createAnonymizationBuilder_throws_witness :
  (∅ : gmap string unit) !! "imageResourcesPath" = None /\
  DefaultAnonymizationLayerFactory.createAnonymizationBuilder
    (V:=PageViewport.t) (Page:=unit) (∅ : gmap string unit)
    {| div_style_width := "100px"; div_style_height := "100px";
       children := [] |}
    tt [Rect sample_rectangle] None
    = Throw (ReferenceError "imageResourcesPath").
Proof.
  split; [reflexivity|].
  apply (createAnonymizationBuilder_throws (V:=PageViewport.t) (Page:=unit)
           (∅ : gmap string unit)).
  reflexivity.
Defined.

(** ** The canvas-space rectangle on a page viewport *)

Section Area.
Local Open Scope Q_scope.

Lemma Qabs_square (s : Q) : Qabs (s * s) == s * s.
Proof.
  apply Qabs_pos. destruct (Qlt_le_dec s 0) as [Hneg|Hpos].
  - assert (Hsq : s * s == (- s) * (- s)) by ring. rewrite Hsq.
    apply Qmult_le_0_compat; apply (Qopp_le_compat s 0), Qlt_le_weak, Hneg.
  - by apply Qmult_le_0_compat.
Qed.

Lemma Qabs_eq_or_opp (u v : Q) : u == v \/ u == - v -> Qabs u == Qabs v.
Proof. intros [-> | ->]; [reflexivity | apply Qabs_opp]. Qed.

(** The rotation part is a signed permutation matrix. *)
Lemma rotate_axis_aligned (v : PageViewport.t) :
  let '(a, b, c, d) := PageViewport.rotate v in
  a * b == 0 /\ c * d == 0 /\ (a * d + b * c == 1 \/ a * d + b * c == - (1)).
Proof.
  unfold PageViewport.rotate.
  destruct (_ =? 180)%Z; [|destruct (_ =? 90)%Z; [|destruct (_ =? 270)%Z]];
    destruct (PageViewport.dontFlip v);
    (split; [reflexivity | split; [reflexivity |]]);
    solve [left; reflexivity | right; reflexivity].
Qed.

Lemma transform_shape (v : PageViewport.t) :
  exists a b c d e f,
    PageViewport.rotate v = (a, b, c, d) /\
    PageViewport.transform v =
      (a * PageViewport.scale v, b * PageViewport.scale v,
       c * PageViewport.scale v, d * PageViewport.scale v, e, f).
Proof.
  unfold PageViewport.transform.
  destruct (PageViewport.viewBox v) as [[[vx0 vy0] vx1] vy1].
  destruct (PageViewport.rotate v) as [[[a b] c] d].
  destruct (PageViewport.quarter_turned v); repeat eexists.
Qed.

(** The height entry of the rectangle is, up to sign, the difference of
    the two ordinates when these lie on the same side of [h]. *)
Lemma flipped_difference (Y0 Y1 h : Q) :
  (Y0 <= h /\ Y1 <= h) \/ (h <= Y0 /\ h <= Y1) ->
  Qabs (Y1 - h) - Qabs (Y0 - h) == Y1 - Y0 \/
  Qabs (Y1 - h) - Qabs (Y0 - h) == - (Y1 - Y0).
Proof.
  intros [[H0 H1] | [H0 H1]].
  - right. rewrite (Qabs_neg (Y1 - h)), (Qabs_neg (Y0 - h)).
    + ring.
    + apply (Qplus_le_l _ _ h); by ring_simplify.
    + apply (Qplus_le_l _ _ h); by ring_simplify.
  - left. rewrite (Qabs_pos (Y1 - h)), (Qabs_pos (Y0 - h)).
    + ring.
    + apply (Qplus_le_l _ _ h); by ring_simplify.
    + apply (Qplus_le_l _ _ h); by ring_simplify.
Qed.

Lemma area_core (s a b c d e f h px0 py0 px1 py1 : Q) :
  a * b == 0 -> c * d == 0 ->
  (a * d + b * c == 1 \/ a * d + b * c == - (1)) ->
  let X0 := px0 * (a * s) + py0 * (c * s) + e in
  let Y0 := px0 * (b * s) + py0 * (d * s) + f in
  let X1 := px1 * (a * s) + py1 * (c * s) + e in
  let Y1 := px1 * (b * s) + py1 * (d * s) + f in
  (Y0 <= h /\ Y1 <= h) \/ (h <= Y0 /\ h <= Y1) ->
  Qabs ((X1 - X0) * (Qabs (Y1 - h) - Qabs (Y0 - h)))
    == s * s * (Qabs (px1 - px0) * Qabs (py1 - py0)).
Proof.
  intros Hab Hcd Hdet X0 Y0 X1 Y1 Hside.
  assert (Hprod : (X1 - X0) * (Y1 - Y0)
                  == (a * d + b * c) * (s * s * ((px1 - px0) * (py1 - py0)))).
  { subst X0 Y0 X1 Y1.
    assert (Hexp :
      (px1 * (a * s) + py1 * (c * s) + e - (px0 * (a * s) + py0 * (c * s) + e))
       * (px1 * (b * s) + py1 * (d * s) + f - (px0 * (b * s) + py0 * (d * s) + f))
      == s * s * ((a * b) * ((px1 - px0) * (px1 - px0))
                     + (a * d + b * c) * ((px1 - px0) * (py1 - py0))
                     + (c * d) * ((py1 - py0) * (py1 - py0)))) by ring.
    rewrite Hexp, Hab, Hcd. ring. }
  rewrite <- (Qabs_square s), <- !Qabs_Qmult.
  apply Qabs_eq_or_opp.
  destruct (flipped_difference Y0 Y1 h Hside) as [-> | ->];
    destruct Hdet as [Hdet | Hdet].
  - left. rewrite Hprod, Hdet. ring.
  - right. rewrite Hprod, Hdet. ring.
  - right. assert (Hneg : (X1 - X0) * - (Y1 - Y0)
                          == - ((X1 - X0) * (Y1 - Y0))) by ring.
    rewrite Hneg, Hprod, Hdet. ring.
  - left. assert (Hneg : (X1 - X0) * - (Y1 - Y0)
                         == - ((X1 - X0) * (Y1 - Y0))) by ring.
    rewrite Hneg, Hprod, Hdet. ring.
Qed.

(** C6, with both corners on one side of the height: on a page viewport
    of any scale, rotation, offsets and flip, when both corners of the
    rectangle map to ordinates on the same side of the viewport height
    (both at most the height, or both at least), the rectangle
    [[x, y, width, height]] computed by [create] has absolute area
    [|width * height|] equal to the page-space area
    [|x1 - x0| * |y1 - y0|] times the square of the scale. *)
Theorem canvas_area_scales_on_one_side_of_height (v : PageViewport.t)
    (r : Rectangle) :
  same_side_of_height v r ->
  let '(x, y, w, h) :=
    viewportRectangle (AnonymizationElementFactory.create r tt v) in
  Qabs (w * h)
    == PageViewport.scale v * PageViewport.scale v
       * (Qabs (x1 r - x0 r) * Qabs (y1 r - y0 r)).
Proof.
  unfold same_side_of_height, AnonymizationElementFactory.create.
  cbn [viewportRectangle convertToViewportPoint height PageViewport_like].
  unfold PageViewport.convertToViewportPoint.
  destruct (transform_shape v) as (a & b & c & d & e & f & Hrot & ->).
  pose proof (rotate_axis_aligned v) as Hax. rewrite Hrot in Hax.
  destruct Hax as (Hab & Hcd & Hdet).
  unfold PageViewport.applyTransform. cbn [fst snd].
  intros Hside.
  exact (area_core (PageViewport.scale v) a b c d e f (PageViewport.height v)
           (x0 r) (y0 r) (x1 r) (y1 r) Hab Hcd Hdet Hside).
Qed.

Lemma canvas_area_scales_on_one_side_of_height_witness :
  same_side_of_height sample_viewport sample_rectangle /\
  let '(x, y, w, h) :=
    viewportRectangle
      (AnonymizationElementFactory.create sample_rectangle tt sample_viewport) in
  Qabs (w * h) == 1 * 1 * (Qabs (40 - 10) * Qabs (60 - 20)).
Proof.
  assert (Hside : same_side_of_height sample_viewport sample_rectangle).
  { left. split; vm_compute; discriminate. }
  split; [exact Hside|].
  exact (canvas_area_scales_on_one_side_of_height sample_viewport sample_rectangle
           Hside).
Defined.

(** C6: at scale 1 on a page 100 units high, the rectangle from (0, 50)
    to (10, 150) has page-space area 1000, and the rectangle computed by
    [create] has height 0, hence area 0. *)
Lemma canvas_area_of_overshooting_rectangle :
  let '(x, y, w, h) :=
    viewportRectangle
      (AnonymizationElementFactory.create overshooting_rectangle tt
         sample_viewport) in
  Qabs (w * h) == 0 /\
  PageViewport.scale sample_viewport * PageViewport.scale sample_viewport
    * (Qabs (x1 overshooting_rectangle - x0 overshooting_rectangle)
       * Qabs (y1 overshooting_rectangle - y0 overshooting_rectangle))
    == 1000 /\
  ~ Qabs (w * h)
    == PageViewport.scale sample_viewport * PageViewport.scale sample_viewport
       * (Qabs (x1 overshooting_rectangle - x0 overshooting_rectangle)
          * Qabs (y1 overshooting_rectangle - y0 overshooting_rectangle)).
Proof.
  vm_compute. split; [reflexivity|]. split; [reflexivity|]. discriminate.
Qed.

End Area.

(** ** What mouse events do to the array and to the canvas *)

Section EventHistories.
Context {V Page : Type} `{!ViewportLike V}.
Import AnonymizationLayer.

(** One event on the single listener of [p]: the array gains the rectangle
    of the drag the event completes, if any; the canvas only receives
    calls on its context; nothing is thrown. *)
Lemma fire_effect (p : Parameters V Page) (s : Session V) (g : Gesture V)
    (a : option MouseEvent) (ev : Event) :
  listeners s = [g] -> tracks p a g ->
  exists g' ops,
    fire s ev =
      {| store :=
           {| canvas := append_ops ops (canvas (store s));
              rectangles := rectangles (store s) ++ drawn p (released a ev) |};
         listeners := [g'];
         reported := reported s |} /\
    tracks p (anchor_step a ev) g'.
Proof.
  intros Hl [Hreg Ha]. rewrite (fire_single s g ev Hl).
  destruct ev as [e|e|e]; cbn [handler released].
  - rewrite mousedown_spec. exists
      (if painting g then g
       else set_painting true (set_createRectangle (Some e) g)), [].
    rewrite append_ops_nil.
    replace (drawn p (match a with Some _ | _ => [] end)) with (@nil Entry)
      by (by destruct a).
    rewrite app_nil_r. split; [by destruct (store s)|].
    destruct a as [e0|]; cbn in Ha |- *.
    + destruct Ha as [Hp Hc]. rewrite Hp. repeat split; auto; apply Hreg.
    + rewrite Ha. repeat split; auto; apply Hreg.
  - destruct a as [e0|]; cbn in Ha.
    + destruct Ha as [Hp Hc].
      rewrite (mouseup_painting p e0 e g (store s) Hreg Hp Hc).
      eexists _, _. split; [reflexivity|].
      split; [exact Hreg|exact eq_refl].
    + rewrite (mouseup_idle e g (store s) Ha). exists g, [].
      rewrite append_ops_nil. cbn [drawn map]. rewrite app_nil_r.
      split; [by destruct (store s)|]. split; [exact Hreg|exact Ha].
  - destruct a as [e0|]; cbn in Ha.
    + destruct Ha as [Hp Hc].
      rewrite (mousemove_painting p e0 e g (store s) Hreg Hp Hc).
      eexists _, _. cbn [drawn map]. rewrite app_nil_r.
      split; [reflexivity|]. split; [exact Hreg|]. split; [exact Hp|exact Hc].
    + rewrite (mousemove_idle p e g (store s) Hreg Ha).
      eexists _, _. cbn [drawn map]. rewrite app_nil_r.
      split; [reflexivity|]. split; [exact Hreg|exact Ha].
Qed.

Lemma drawn_app (p : Parameters V Page) (a b : list (MouseEvent * MouseEvent)) :
  drawn p (a ++ b) = (drawn p a ++ drawn p b)%list.
Proof. unfold drawn. apply map_app. Qed.

Lemma fire_all_effect (p : Parameters V Page) (evs : list Event) :
  forall (s : Session V) (g : Gesture V) (a : option MouseEvent),
  listeners s = [g] -> tracks p a g ->
  exists g' ops,
    fire_all s evs =
      {| store :=
           {| canvas := append_ops ops (canvas (store s));
              rectangles :=
                rectangles (store s) ++ drawn p (completed_from a evs) |};
         listeners := [g'];
         reported := reported s |} /\
    tracks p (fold_left anchor_step evs a) g'.
Proof.
  induction evs as [|ev evs IH]; intros s g a Hl Ht.
  - exists g, []. cbn. rewrite append_ops_nil, app_nil_r.
    split; [|exact Ht]. rewrite <- Hl. by destruct s as [[] ? ?].
  - destruct (fire_effect p s g a ev Hl Ht) as (g1 & ops1 & Hfire & Ht1).
    cbn [fire_all fold_left completed_from]. rewrite Hfire.
    match goal with |- context [fold_left fire evs ?s1] =>
      destruct (IH s1 g1 (anchor_step a ev) eq_refl Ht1)
        as (g2 & ops2 & Hall & Ht2)
    end.
    unfold fire_all in Hall. rewrite Hall. cbn [store canvas rectangles reported].
    exists g2, (ops1 ++ ops2)%list. split; [|exact Ht2].
    by rewrite append_ops_app, drawn_app, app_assoc.
Qed.

Lemma rendered_unlistened (p : Parameters V Page) (st : Store)
    (errs : list JsError) :
  exists g,
    rendered p (unlistened st errs) =
      {| store :=
           {| canvas := append_ops (paint_calls (factory_of p) (rectangles st))
                          (canvas st);
              rectangles := rectangles st |};
         listeners := [g];
         reported := errs |} /\
    tracks p None g.
Proof.
  unfold rendered, state_after. rewrite render_spec. eexists.
  split; [reflexivity|]. split; [|reflexivity]. repeat split.
Qed.

(** X1: on a canvas that had no listener before [render], no sequence of
    mouse events makes a handler throw; in particular a [mouseup] or a
    [mousemove] that comes before any [mousedown] never calls the
    [createRectangle] that is still [null]. *)
Theorem no_handler_throws_after_render (p : Parameters V Page) (st : Store)
    (errs : list JsError) (evs : list Event) :
  reported (fire_all (rendered p (unlistened st errs)) evs) = errs.
Proof.
  destruct (rendered_unlistened p st errs) as (g & -> & Ht).
  match goal with |- context [fire_all ?s1 evs] =>
    destruct (fire_all_effect p evs s1 g None eq_refl Ht) as (g' & ops & -> & _)
  end.
  reflexivity.
Qed.

(** X2: after [render], whatever the mouse events, the array is the one
    [render] found followed by one rectangle per completed drag, in the
    order of the releases; each is anchored at the [mousedown] that opened
    the drag (a [mousedown] during a drag is ignored) and ends at the
    [mouseup] that closed it.  No entry is ever removed or rewritten. *)
Theorem array_after_events (p : Parameters V Page) (st : Store)
    (errs : list JsError) (evs : list Event) :
  rectangles (store (fire_all (rendered p (unlistened st errs)) evs)) =
    (rectangles st ++ drawn p (completed_from None evs))%list.
Proof.
  destruct (rendered_unlistened p st errs) as (g & -> & Ht).
  match goal with |- context [fire_all ?s1 evs] =>
    destruct (fire_all_effect p evs s1 g None eq_refl Ht) as (g' & ops & -> & _)
  end.
  reflexivity.
Qed.

(** X3: the mouse handlers only ever send calls to the 2D context: after
    [render] and any mouse events the canvas has the width, height, style
    and attributes it had, and its context log is the old one followed by
    further calls. *)
Theorem events_only_draw (p : Parameters V Page) (st : Store)
    (errs : list JsError) (evs : list Event) :
  exists ops,
    canvas (store (fire_all (rendered p (unlistened st errs)) evs)) =
      append_ops ops (canvas st).
Proof.
  destruct (rendered_unlistened p st errs) as (g & -> & Ht).
  match goal with |- context [fire_all ?s1 evs] =>
    destruct (fire_all_effect p evs s1 g None eq_refl Ht) as (g' & ops & -> & _)
  end.
  cbn [store canvas]. rewrite append_ops_app. by eexists.
Qed.

End EventHistories.

(** ** More on painting and on the geometry of a drag *)

Section PaintingAndGeometry.
Context {V Page : Type} `{!ViewportLike V}.
Import AnonymizationLayer.

Lemma non_null_holes (flags : list bool) : non_null (holes flags) = [].
Proof.
  unfold non_null, holes. induction flags as [|b flags IH]; [reflexivity|].
  destruct b; exact IH.
Qed.

(** X4: when the array holds no rectangle (it is empty, or has only [null]
    and [undefined] entries), [update] returns normally, sends nothing to
    the context, and leaves the canvas without the attribute [hidden]. *)
Theorem update_without_rectangles_reveals (p : Parameters V Page)
    (c : Canvas) (flags : list bool) :
  update p {| canvas := c; rectangles := holes flags |} =
    (Normal tt,
     {| canvas := removeAttribute "hidden" c; rectangles := holes flags |}) /\
  attributes (removeAttribute "hidden" c) !! "hidden" = None /\
  context2d (removeAttribute "hidden" c) = context2d c.
Proof.
  rewrite update_spec. cbn [rectangles canvas]. rewrite non_null_holes.
  split; [reflexivity|]. split; [|reflexivity].
  unfold removeAttribute. cbn [attributes]. apply lookup_delete_eq.
Qed.




(** X6: a rectangle drawn by a drag is painted where it was dragged.  When
    the viewport converts the two canvas points to page space and back
    without loss, and neither pointer position lies above the top edge of
    the canvas, the rectangle that [create] computes for the rectangle
    that the handlers store goes from the anchor to the release point:
    [[x, y, width, height]] is the anchor and the two offsets between the
    points. *)
Theorem drag_is_painted_where_dragged (v : V) (page0 : Page)
    (e0 e1 : MouseEvent) :
  round_trips v (offsetX e0) (height v - offsetY e0) ->
  round_trips v (offsetX e1) (height v - offsetY e1) ->
  (0 <= offsetY e0)%Q -> (0 <= offsetY e1)%Q ->
  let '(x, y, w, h) :=
    viewportRectangle
      (AnonymizationElementFactory.create (createRectangle_body v e0 e1)
         page0 v) in
  (x == offsetX e0 /\ y == offsetY e0 /\
   w == offsetX e1 - offsetX e0 /\ h == offsetY e1 - offsetY e0)%Q.
Proof.
  unfold round_trips, AnonymizationElementFactory.create, createRectangle_body.
  cbn [x0 y0 x1 y1 viewportRectangle].
  intros [Hx0 Hy0] [Hx1 Hy1] Hpos0 Hpos1.
  assert (Habs : forall t, (0 <= t)%Q -> (Qabs (height v - t - height v) == t)%Q).
  { intros t Ht.
    assert (Heq : (height v - t - height v == - t)%Q) by ring.
    rewrite Heq, Qabs_opp. by apply Qabs_pos. }
  rewrite Hx0, Hx1, Hy0, Hy1, !Habs by assumption.
  repeat split; reflexivity.
Qed.

End PaintingAndGeometry.

Lemma drag_is_painted_where_dragged_witness :
  round_trips sample_viewport 10 (height sample_viewport - 10) /\
  round_trips sample_viewport 50 (height sample_viewport - 40) /\
  let '(x, y, w, h) :=
    viewportRectangle
      (AnonymizationElementFactory.create
         (AnonymizationLayer.createRectangle_body sample_viewport
            (at_point 10 10) (at_point 50 40)) tt sample_viewport) in
  (x == 10 /\ y == 10 /\ w == 50 - 10 /\ h == 40 - 10)%Q.
Proof.
  assert (H0 : round_trips sample_viewport (offsetX (at_point 10 10))
                 (height sample_viewport - offsetY (at_point 10 10))).
  { split; vm_compute; reflexivity. }
  assert (H1 : round_trips sample_viewport (offsetX (at_point 50 40))
                 (height sample_viewport - offsetY (at_point 50 40))).
  { split; vm_compute; reflexivity. }
  split; [exact H0|]. split; [exact H1|].
  apply (drag_is_painted_where_dragged sample_viewport tt
           (at_point 10 10) (at_point 50 40) H0 H1);
    vm_compute; discriminate.
Defined.

(** ** Rendering several times on one canvas *)

Section RenderAgain.
Context {V Page : Type} `{!ViewportLike V}.
Import AnonymizationLayer.

Lemma run_listener_effect (p : Parameters V Page) (g : Gesture V)
    (a : option MouseEvent) (ev : Event) (st : Store) (errs : list JsError) :
  tracks p a g ->
  exists g' st',
    run_listener ev g st errs = (g', st', errs) /\
    rectangles st' = (rectangles st ++ drawn p (released a ev))%list /\
    tracks p (anchor_step a ev) g'.
Proof.
  intros Ht.
  destruct (fire_effect p {| store := st; listeners := [g]; reported := errs |}
              g a ev eq_refl Ht) as (g' & ops & Hfire & Ht').
  unfold fire in Hfire. cbn [listeners store reported dispatch_to] in Hfire.
  destruct (run_listener ev g st errs) as [[g1 st1] errs1].
  injection Hfire as -> -> ->. eexists _, _. split; [reflexivity|].
  split; [reflexivity|exact Ht'].
Qed.

(** Every listener handles the event in turn, each on the store the one
    before it left. *)
Lemma dispatch_to_tracked (p : Parameters V Page) (a : option MouseEvent)
    (ev : Event) (gs : list (Gesture V)) :
  forall (st : Store) (errs : list JsError),
  Forall (tracks p a) gs ->
  exists gs' st',
    dispatch_to ev gs st errs = (gs', st', errs) /\
    rectangles st' =
      (rectangles st
       ++ concat (replicate (length gs) (drawn p (released a ev))))%list /\
    Forall (tracks p (anchor_step a ev)) gs' /\
    length gs' = length gs.
Proof.
  induction gs as [|g gs IH]; intros st errs Hall.
  - exists [], st. cbn. by rewrite app_nil_r.
  - apply Forall_cons in Hall as [Hg Hgs].
    destruct (run_listener_effect p g a ev st errs Hg)
      as (g' & st1 & Hrun & Hrs1 & Hg').
    destruct (IH st1 errs Hgs) as (gs' & st2 & Hdisp & Hrs2 & Hgs' & Hlen).
    exists (g' :: gs'), st2. cbn [dispatch_to]. rewrite Hrun, Hdisp.
    split; [reflexivity|]. split.
    + rewrite Hrs2, Hrs1. cbn [length replicate concat].
      by rewrite <- !app_assoc.
    + split; [by constructor|]. cbn. by rewrite Hlen.
Qed.

Lemma rendered_again (p : Parameters V Page) (n : nat) (st : Store)
    (errs : list JsError) :
  exists c gs,
    Nat.iter n (rendered p) (unlistened st errs) =
      {| store := {| canvas := c; rectangles := rectangles st |};
         listeners := gs; reported := errs |} /\
    Forall (tracks p None) gs /\ length gs = n.
Proof.
  induction n as [|n (c & gs & Hn & Hall & Hlen)].
  - exists (canvas st), []. cbn. split; [by destruct st|]. by split.
  - rewrite Nat.iter_succ, Hn. unfold rendered, state_after.
    rewrite render_spec. cbn [snd store canvas rectangles listeners reported].
    eexists _, _. split; [reflexivity|]. split.
    + apply Forall_app. split; [exact Hall|].
      constructor; [|constructor]. split; [|reflexivity]. repeat split.
    + rewrite length_app, Hlen. cbn. lia.
Qed.

(** X7: every call of [render] registers its own three handlers with their
    own drag state, and nothing removes the earlier ones.  After [n] calls
    on one canvas a single drag is handled [n] times: the array gains the
    rectangle of the drag [n] times, and still no handler throws. *)
Theorem render_again_draws_again (p : Parameters V Page) (n : nat)
    (st : Store) (errs : list JsError) (e0 e1 : MouseEvent) :
  let s := Nat.iter n (rendered p) (unlistened st errs) in
  let r := createRectangle_body (viewport p) e0 e1 in
  length (listeners s) = n /\
  rectangles (store (fire_all s [MouseDown e0; MouseUp e1])) =
    (rectangles st ++ replicate n (Rect r))%list /\
  reported (fire_all s [MouseDown e0; MouseUp e1]) = errs.
Proof.
  intros s r. subst s.
  destruct (rendered_again p n st errs) as (c & gs & -> & Hall & Hlen).
  split; [exact Hlen|].
  unfold fire_all. cbn [fold_left]. unfold fire at 2 4.
  cbn [listeners store reported].
  destruct (dispatch_to_tracked p None (MouseDown e0) gs
              {| canvas := c; rectangles := rectangles st |} errs Hall)
    as (gs1 & st1 & -> & Hrs1 & Hall1 & Hlen1).
  unfold fire. cbn [listeners store reported].
  destruct (dispatch_to_tracked p (Some e0) (MouseUp e1) gs1 st1 errs Hall1)
    as (gs2 & st2 & -> & Hrs2 & Hall2 & Hlen2).
  cbn [store reported]. split; [|reflexivity].
  rewrite Hrs2, Hrs1, Hlen1, Hlen. cbn [released drawn map rectangles fst snd].
  fold r.
  assert (Hnone : concat (replicate n (@nil Entry)) = []).
  { clear. induction n as [|n IH]; [reflexivity|]. exact IH. }
  assert (Hone : concat (replicate n [Rect r]) = replicate n (Rect r)).
  { clear. induction n as [|n IH]; cbn; [reflexivity|]. by rewrite IH. }
  by rewrite Hnone, Hone, app_nil_r.
Qed.

End RenderAgain.

(** ** The life of a builder *)

Section BuilderHistories.
Context {V Page : Type} `{!ViewportLike V}.
Import AnonymizationLayerBuilder.

Lemma step_appended_once (pageDiv0 : PageDiv) (w : World V Page)
    (a : Action V) :
  appended_once pageDiv0 w -> appended_once pageDiv0 (step w a).
Proof.
  unfold appended_once. intros Hinv.
  destruct a as [viewport intent| | |i|i reason|ev]; cbn [step].
  - exact Hinv.
  - exact Hinv.
  - unfold hide, state_after, bind, get, ret, modify.
    destruct (canvas w) eqn:Hcan; cbn; [exact Hinv|]. by rewrite Hcan.
  - rewrite fulfil_cases.
    destruct (pending w !! i) as [[viewport intent]|]; [|exact Hinv].
    cbv zeta. destruct (_cancelled w); [exact Hinv|].
    destruct (canvas w) as [c|] eqn:Hcan.
    + destruct (non_null (rectangles w)); cbn; exact Hinv.
    + destruct Hinv as (Hw & Hh & Hch & Hcr). cbn.
      rewrite Hw, Hh, Hch, Hcr. by rewrite app_nil_r.
  - unfold reject. destruct (pending w !! i); exact Hinv.
  - unfold mouse. destruct (canvas w) eqn:Hcan; cbn; [exact Hinv|].
    by rewrite Hcan.
Qed.

(** X8: over the whole life of a builder the page container keeps its
    inline size and gains exactly one child, the canvas, at the moment the
    canvas is created; [document.createElement] is called once if the
    canvas exists and never otherwise.  Later renders, [hide], [cancel],
    failed fetches and mouse events add no second canvas. *)
Theorem canvas_created_and_appended_once (pageDiv0 : PageDiv)
    (pdfPage0 : Page) (rectangles0 : list Entry) (l10n0 : option L10n)
    (acts : list (Action V)) :
  let w := run (constructor pageDiv0 pdfPage0 rectangles0 l10n0) acts in
  div_style_width (pageDiv w) = div_style_width pageDiv0 /\
  div_style_height (pageDiv w) = div_style_height pageDiv0 /\
  children (pageDiv w) =
    (children pageDiv0 ++
     match canvas w with Some _ => ["canvas"] | None => [] end)%list /\
  created w = match canvas w with Some _ => 1%nat | None => 0%nat end.
Proof.
  intros w. subst w.
  assert (Hinv : forall (w : World V Page),
             appended_once pageDiv0 w -> appended_once pageDiv0 (run w acts)).
  { induction acts as [|a acts IH]; intros w Hw; [exact Hw|].
    apply IH, step_appended_once, Hw. }
  apply Hinv. unfold appended_once. cbn. by rewrite app_nil_r.
Qed.



End BuilderHistories.

(** ** What a resolved render leaves on the canvas *)

Section ResolvedRenders.
Context {V Page : Type} `{!ViewportLike V}.
Import AnonymizationLayerBuilder.

(** X10: when the fetch of a render that is not cancelled resolves, the
    builder has a canvas afterwards, and this canvas has the width and
    height of the viewport passed to [render], as the [unsigned long]
    attributes of a canvas keep them (truncated to an integer), and the
    inline size of the page container; so it is on the first render and
    on every later one, also when the update of the layer throws. *)
Theorem resolved_render_sizes_canvas (w : World V Page) (i : nat)
    (viewport : V) (intent : string) :
  pending w !! i = Some (viewport, intent) -> _cancelled w = false ->
  exists c,
    canvas (fulfil i w) = Some c /\
    canvas_width c = canvas_dimension 300 (width viewport) /\
    canvas_height c = canvas_dimension 150 (height viewport) /\
    style_width c = div_style_width (pageDiv w) /\
    style_height c = div_style_height (pageDiv w).
Proof.
  intros Hi Hc. rewrite fulfil_cases, Hi, Hc. cbv zeta.
  destruct (canvas w) as [c|].
  - destruct (non_null (rectangles w)); eexists; (split; [reflexivity|]);
      repeat split.
  - eexists. split; [reflexivity|]. repeat split.
Qed.

Lemma replay_ends_reset (px py : Q) (ops : list CtxOp) (st : string * Pixel) :
  fold_left (replay_op px py) (ops ++ [ResetBitmap]) st
    = ("#000000", Transparent).
Proof. by rewrite fold_left_app. Qed.

Lemma pixel_resized (viewport : V) (w : World V Page) (c : Canvas)
    (px py : Q) :
  pixel (resized viewport w c) px py = Transparent /\
  pixel (removeAttribute "hidden" (resized viewport w c)) px py = Transparent.
Proof.
  unfold pixel. cbn [resized removeAttribute context2d].
  change [ResetBitmap; ResetBitmap] with ([ResetBitmap] ++ [ResetBitmap])%list.
  by rewrite app_assoc, replay_ends_reset.
Qed.

(** X11: a render on a builder that already has its canvas leaves the
    bitmap blank.  Assigning the width and height resets the bitmap, and
    the update of the layer paints nothing (it returns without painting
    when the array holds no rectangle and throws before painting when it
    holds one): afterwards every pixel is transparent, and the context has
    received no [fillRect] beyond those it had. *)
Theorem rerender_leaves_blank_bitmap (w : World V Page) (i : nat)
    (viewport : V) (intent : string) :
  pending w !! i = Some (viewport, intent) -> _cancelled w = false ->
  is_Some (canvas w) ->
  exists c0 c,
    canvas w = Some c0 /\ canvas (fulfil i w) = Some c /\
    (forall px py, pixel c px py = Transparent) /\
    paints (context2d c) = paints (context2d c0).
Proof.
  intros Hi Hc [c0 Hcan]. rewrite fulfil_cases, Hi, Hc, Hcan. cbv zeta.
  exists c0.
  destruct (non_null (rectangles w)); eexists; (split; [reflexivity|]);
    (split; [reflexivity|]); (split; [intros px py; apply pixel_resized|]);
    cbn [resized removeAttribute context2d]; rewrite paints_app;
    apply app_nil_r.
Qed.

(** X12: [hide()] followed by a render that resolves shows the canvas again
    only if the array holds no rectangle.  If it holds one, the update of
    the layer throws before it removes the attribute: the canvas stays
    hidden and the [TypeError] ends as an unhandled rejection. *)
Theorem hide_then_render (w : World V Page) (i : nat) (viewport : V)
    (intent : string) :
  pending w !! i = Some (viewport, intent) -> _cancelled w = false ->
  is_Some (canvas w) ->
  let w' := fulfil i (state_after hide w) in
  exists c,
    canvas w' = Some c /\
    match non_null (rectangles w) with
    | [] => attributes c !! "hidden" = None /\ unhandled w' = unhandled w
    | _ :: _ =>
        attributes c !! "hidden" = Some "true" /\
        unhandled w' =
          (unhandled w ++ [TypeError "rectangleFactory is not a function"])%list
    end.
Proof.
  intros Hi Hc [c0 Hcan] w'. subst w'.
  unfold hide, state_after, bind, get, ret, modify. rewrite Hcan. cbn [snd].
  rewrite fulfil_cases. cbn [pending set_canvas _cancelled canvas rectangles].
  rewrite Hi, Hc. cbv zeta.
  destruct (non_null (rectangles w)); eexists; (split; [reflexivity|]);
    (split; [|reflexivity]);
    cbn [resized removeAttribute setAttribute attributes].
  - apply lookup_delete_eq.
  - apply lookup_insert_eq.
Qed.

End ResolvedRenders.

Lemma resolved_render_sizes_canvas_witness :
  AnonymizationLayerBuilder.pending fractional_builder !! 0%nat
    = Some (fractional_viewport, "display") /\
  AnonymizationLayerBuilder._cancelled fractional_builder = false /\
  (width fractional_viewport == 303 # 2)%Q /\
  exists c,
    AnonymizationLayerBuilder.canvas
      (AnonymizationLayerBuilder.fulfil 0 fractional_builder) = Some c /\
    canvas_width c = 151%Z /\ canvas_height c = 151%Z /\
    style_width c = "100px" /\ style_height c = "100px".
Proof.
  split; [reflexivity|]. split; [reflexivity|]. split; [reflexivity|].
  destruct (resolved_render_sizes_canvas fractional_builder 0
              fractional_viewport "display" eq_refl eq_refl)
    as (c & Hc & Hw & Hh & Hsw & Hsh).
  exists c. split; [exact Hc|]. split; [exact Hw|]. split; [exact Hh|].
  split; [exact Hsw|exact Hsh].
Defined.

Lemma rerender_leaves_blank_bitmap_witness :
  AnonymizationLayerBuilder.pending (refetching_builder [Rect sample_rectangle]) !! 0%nat
    = Some (sample_viewport, "display") /\
  AnonymizationLayerBuilder._cancelled (refetching_builder [Rect sample_rectangle])
    = false /\
  is_Some (AnonymizationLayerBuilder.canvas
             (refetching_builder [Rect sample_rectangle])) /\
  exists c0 c,
    AnonymizationLayerBuilder.canvas (refetching_builder [Rect sample_rectangle])
      = Some c0 /\
    AnonymizationLayerBuilder.canvas
      (AnonymizationLayerBuilder.fulfil 0
         (refetching_builder [Rect sample_rectangle])) = Some c /\
    (forall px py, pixel c px py = Transparent) /\
    paints (context2d c) = paints (context2d c0).
Proof.
  assert (Hcan : is_Some (AnonymizationLayerBuilder.canvas
                            (refetching_builder [Rect sample_rectangle]))).
  { eexists. reflexivity. }
  split; [reflexivity|]. split; [reflexivity|]. split; [exact Hcan|].
  exact (rerender_leaves_blank_bitmap
           (refetching_builder [Rect sample_rectangle]) 0 sample_viewport
           "display" eq_refl eq_refl Hcan).
Defined.

Lemma hide_then_render_witness :
  AnonymizationLayerBuilder.pending (refetching_builder [Rect sample_rectangle]) !! 0%nat
    = Some (sample_viewport, "display") /\
  AnonymizationLayerBuilder._cancelled (refetching_builder [Rect sample_rectangle])
    = false /\
  is_Some (AnonymizationLayerBuilder.canvas
             (refetching_builder [Rect sample_rectangle])) /\
  exists c,
    AnonymizationLayerBuilder.canvas
      (AnonymizationLayerBuilder.fulfil 0
         (state_after AnonymizationLayerBuilder.hide
            (refetching_builder [Rect sample_rectangle]))) = Some c /\
    attributes c !! "hidden" = Some "true".
Proof.
  assert (Hcan : is_Some (AnonymizationLayerBuilder.canvas
                            (refetching_builder [Rect sample_rectangle]))).
  { eexists. reflexivity. }
  split; [reflexivity|]. split; [reflexivity|]. split; [exact Hcan|].
  destruct (hide_then_render (refetching_builder [Rect sample_rectangle]) 0
              sample_viewport "display" eq_refl eq_refl Hcan)
    as (c & Hc & Hattr).
  exists c. split; [exact Hc|]. exact (proj1 Hattr).
Defined.

(** ** Drawing after later renders *)

Section DrawingAfterRenders.
Context {V Page : Type} `{!ViewportLike V}.
Import AnonymizationLayerBuilder.

Lemma first_render_rendered_at (viewport : V) (pageDiv0 : PageDiv)
    (pdfPage0 : Page) (rectangles0 : list Entry) (l10n0 : option L10n) :
  rendered_at viewport rectangles0
    (run (constructor pageDiv0 pdfPage0 rectangles0 l10n0)
       [Render viewport None; Fulfil 0]).
Proof.
  unfold run. cbn [fold_left step]. unfold state_after.
  cbn [render modify snd]. rewrite fulfil_cases. cbn.
  unfold rendered_at. cbn. repeat split; eauto.
  eexists. split; [reflexivity|]. repeat split.
Qed.

Lemma rerender_rendered_at (viewport viewport' : V) (rectangles0 : list Entry)
    (w : World V Page) :
  rendered_at viewport rectangles0 w ->
  rendered_at viewport rectangles0 (run w [Render viewport' None; Fulfil 0]).
Proof.
  intros (Hc & [c Hcan] & Hrs & Hp & Hrep & g & Hl & Ht).
  unfold run. cbn [fold_left step]. unfold state_after.
  cbn [render modify snd]. rewrite fulfil_cases.
  cbn [pending set_pending _cancelled canvas rectangles]. rewrite Hp, Hc, Hcan.
  cbn [app lookup list_lookup]. cbv zeta.
  destruct (non_null (rectangles w)); unfold rendered_at; cbn;
    repeat split; eauto.
Qed.

Lemma rerenders_rendered_at (viewport : V) (rectangles0 : list Entry)
    (vs : list V) :
  forall w : World V Page,
  rendered_at viewport rectangles0 w ->
  rendered_at viewport rectangles0 (run w (rerenders vs)).
Proof.
  induction vs as [|v vs IH]; intros w Hw; [exact Hw|].
  unfold rerenders. cbn [flat_map].
  change (run w ([Render v None; Fulfil 0] ++ rerenders vs))
    with (run (run w [Render v None; Fulfil 0]) (rerenders vs)).
  apply IH, rerender_rendered_at, Hw.
Qed.

(** X13: the mouse handlers are registered by the first render only and
    keep the viewport of that render.  Whatever viewports later renders
    are given (after a zoom or a rotation), a drag on the canvas still
    appends the rectangle computed with the first viewport, cloned with
    [dontFlip], and appends it to the array the constructor received. *)
Theorem drags_keep_the_first_viewport (pageDiv0 : PageDiv) (pdfPage0 : Page)
    (rectangles0 : list Entry) (l10n0 : option L10n) (viewport : V)
    (later : list V) (e0 e1 : MouseEvent) :
  let w := run (constructor pageDiv0 pdfPage0 rectangles0 l10n0)
             ([Render viewport None; Fulfil 0] ++ rerenders later
              ++ [Mouse (MouseDown e0); Mouse (MouseUp e1)]) in
  rectangles w =
    (rectangles0 ++
     [Rect (AnonymizationLayer.createRectangle_body (clone viewport true)
              e0 e1)])%list /\
  reported w = [].
Proof.
  intros w. subst w. unfold run. rewrite !fold_left_app.
  pose proof (rerenders_rendered_at viewport rectangles0 later _
                (first_render_rendered_at viewport pageDiv0 pdfPage0
                   rectangles0 l10n0)) as Hw.
  unfold run in Hw.
  set (w1 := fold_left step (rerenders later) _) in *.
  destruct Hw as (Hc & [c Hcan] & Hrs & Hp & Hrep & g & Hl & Ht).
  cbn [fold_left step].
  set (p := {| AnonymizationLayer.viewport := clone viewport true;
               AnonymizationLayer.page := pdfPage w1 |}) in *.
  assert (Hdown : exists g1 ops1,
            mouse (MouseDown e0) w1 =
              put_session
                (session_of (append_ops ops1 c) (rectangles w1) [g1]
                   (reported w1)) w1 /\
            tracks p (Some e0) g1).
  { unfold mouse. rewrite Hcan, Hl.
    destruct (fire_effect p (session_of c (rectangles w1) [g] (reported w1)) g
                None (MouseDown e0) eq_refl Ht) as (g1 & ops1 & -> & Ht1).
    exists g1, ops1. split; [|exact Ht1].
    cbn [released drawn map]. unfold session_of. cbn. by rewrite app_nil_r. }
  destruct Hdown as (g1 & ops1 & -> & Ht1).
  unfold mouse. cbn [put_session canvas session_canvas session_rectangles
    listeners reported rectangles session_of AnonymizationLayer.store
    AnonymizationLayer.listeners AnonymizationLayer.reported].
  match goal with |- context [AnonymizationLayer.fire ?s1 (MouseUp e1)] =>
    destruct (fire_effect p s1 g1 (Some e0) (MouseUp e1) eq_refl Ht1)
      as (g2 & ops2 & -> & Ht2)
  end.
  cbn. by rewrite Hrs, Hrep.
Qed.

End DrawingAfterRenders.
